(** * PCI DSS compliance dashboard: the view-model logic of [app/main.py]

    The dashboard reads four static datasets and renders them on four pages.
    This development embeds the logic of the script that decides what is
    shown: the name lookup and the colour palettes, the score cards and the
    requirement cards of the Executive Summary, the join of the Requirement
    Details page, the filter and the CSV export of the Findings page, the
    event annotations of the Trend Analysis page and the memoised loaders.

    Conventions.  A Python [str] is a [string] (its bytes); JSON integers are
    [Z]; a JSON number that the script treats as a float is the exact rational
    value of that float, a [Q].  A Python dict with a fixed schema is a record
    whose fields carry the keys of the dict.  A call that can raise returns an
    [option] or a [result]. *)

From Stdlib Require Import List String Ascii ZArith QArith Qabs Lia Bool.
From Stdlib Require Import DecimalString.
Import ListNotations.

Local Open Scope string_scope.
Local Open Scope Z_scope.

(** ** Python primitives used by the script *)

Module Py.

(** [x in xs] on a list: some element is [==] to [x]. *)
Definition str_in (x : string) (xs : list string) : bool :=
  existsb (String.eqb x) xs.

Definition is_upper (c : ascii) : bool :=
  ((65 <=? N_of_ascii c) && (N_of_ascii c <=? 90))%N.

Definition is_lower (c : ascii) : bool :=
  ((97 <=? N_of_ascii c) && (N_of_ascii c <=? 122))%N.

Definition lower_char (c : ascii) : ascii :=
  if is_upper c then ascii_of_N (N_of_ascii c + 32) else c.

Definition upper_char (c : ascii) : ascii :=
  if is_lower c then ascii_of_N (N_of_ascii c - 32) else c.

(** [s.lower()] and [s.upper()]: the letters A-Z and a-z change case, every
    other byte is kept. *)
Fixpoint lower (s : string) : string :=
  match s with
  | EmptyString => EmptyString
  | String c s' => String (lower_char c) (lower s')
  end.

Fixpoint upper (s : string) : string :=
  match s with
  | EmptyString => EmptyString
  | String c s' => String (upper_char c) (upper s')
  end.

(** [s.replace(a, b)] for one-character [a] and [b]. *)
Fixpoint replace_char (a b : ascii) (s : string) : string :=
  match s with
  | EmptyString => EmptyString
  | String c s' =>
      String (if Ascii.eqb c a then b else c) (replace_char a b s')
  end.

(** [str(n)] for an int. *)
Definition str_of_int (n : Z) : string :=
  NilZero.string_of_int (Z.to_int n).

(** [x > y] on numbers. *)
Definition gt (x y : Q) : bool := negb (Qle_bool x y).

(** The integer nearest to [q], ties to the even one. *)
Definition round_half_even (q : Q) : Z :=
  let n := Qnum q in
  let d := Zpos (Qden q) in
  let fl := n / d in
  let r2 := 2 * (n - fl * d) in
  if r2 <? d then fl
  else if d <? r2 then fl + 1
  else if Z.even fl then fl else fl + 1.

(** [format(x, '.0f')]: [x] rounded to no decimals, ties to even, on the
    exact value of the float; a negative value that rounds to zero keeps
    its sign. *)
Definition format_0f (q : Q) : string :=
  let z := round_half_even q in
  if (Qnum q <? 0) && (z =? 0) then "-0" else str_of_int z.

(** A dict looked up with [colors.get(key, default)]. *)
Fixpoint dict_get (d : list (string * string)) (key default : string)
  : string :=
  match d with
  | [] => default
  | (k, v) :: d' => if String.eqb k key then v else dict_get d' key default
  end.

End Py.

(** ** Data model: the records of the four datasets *)

Module Requirement.
Record t := mk {
  id : string;
  name : string;
  description : string;
  lab_source : string;
  aws_service : string
}.
End Requirement.

Module ControlStatus.
Record t := mk {
  requirement_id : string;
  status : string;
  details : string;
  finding_count : Z;
  last_checked : string;
  evidence_location : string
}.
End ControlStatus.

Module Finding.
Record t := mk {
  id : string;
  requirement_id : string;
  severity : string;
  status : string;
  title : string;
  description : string;
  resource_id : string;
  remediation : string;
  detected_at : string
}.
End Finding.

Module Summary.
Record t := mk {
  compliance_score : Q;
  passing : Z;
  failing : Z
}.
End Summary.

(** The control status snapshot: [snapshot_date], [summary], [controls]. *)
Module Snapshot.
Record t := mk {
  snapshot_date : string;
  summary : Summary.t;
  controls : list ControlStatus.t
}.
End Snapshot.

(** A value of a datetime column: a point in time, in nanoseconds since the
    epoch, or the missing value, which is [==] to nothing, itself included. *)
Inductive Timestamp :=
| NaT
| At (ns : Z).

(** One row of [df_trend], once its [date] column holds timestamps. *)
Module TrendPoint.
Record t := mk {
  date : Timestamp;
  compliance_score : Q;
  passing : Z;
  failing : Z
}.
End TrendPoint.

Module Event.
Record t := mk {
  date : string;
  event : string
}.
End Event.

(** ** Helpers of the script *)

(** [get_requirement_name(req_id, requirements)]: the loop returns at the first
    requirement whose id is [req_id], and falls through to [req_id]. *)
Fixpoint get_requirement_name (req_id : string)
    (requirements : list Requirement.t) : string :=
  match requirements with
  | [] => req_id
  | req :: rest =>
      if String.eqb (Requirement.id req) req_id then Requirement.name req
      else get_requirement_name req_id rest
  end.

Definition severity_colors : list (string * string) :=
  [ ("critical", "#dc3545");
    ("high", "#fd7e14");
    ("medium", "#ffc107");
    ("low", "#28a745") ].

Definition severity_color (severity : string) : string :=
  Py.dict_get severity_colors (Py.lower severity) "#6c757d".

Definition status_colors : list (string * string) :=
  [ ("pass", "#28a745");
    ("fail", "#dc3545");
    ("unknown", "#6c757d") ].

Definition status_color (status : string) : string :=
  Py.dict_get status_colors (Py.lower status) "#6c757d".

(** ** Executive Summary: the four score cards *)

(** What [st.metric] is given: [value] is a string or an int. *)
Inductive MetricValue :=
| VStr (s : string)
| VInt (n : Z).

Record Metric := mkMetric {
  label : string;
  value : MetricValue;
  delta : option string;
  delta_color : string
}.

Definition score_metric (control_status : Snapshot.t) : Metric :=
  let score := Summary.compliance_score (Snapshot.summary control_status) in
  {| label := "Compliance Score";
     value := VStr (Py.format_0f score ++ "%");
     delta := if Py.gt score (33 # 1) then Some "+16.7%" else None;
     delta_color := "normal" |}.

Definition passing_metric (control_status : Snapshot.t) : Metric :=
  let passing := Summary.passing (Snapshot.summary control_status) in
  {| label := "Requirements Passing";
     value := VInt passing;
     delta := if 2 <? passing then Some "+1" else None;
     delta_color := "normal" |}.

Definition failing_metric (control_status : Snapshot.t) : Metric :=
  let failing := Summary.failing (Snapshot.summary control_status) in
  {| label := "Requirements Failing";
     value := VInt failing;
     delta := if failing <? 4 then Some "-1" else None;
     delta_color := "inverse" |}.

(** [len([f for f in findings if f["status"] == "open"])] *)
Definition open_findings (findings : list Finding.t) : Z :=
  Z.of_nat (List.length
    (filter (fun f => String.eqb (Finding.status f) "open") findings)).

(** [len([f for f in findings
          if f["status"] == "open" and f["severity"] == "critical"])] *)
Definition critical_findings (findings : list Finding.t) : Z :=
  Z.of_nat (List.length
    (filter (fun f => String.eqb (Finding.status f) "open"
                      && String.eqb (Finding.severity f) "critical")
            findings)).

Definition open_findings_metric (findings : list Finding.t) : Metric :=
  {| label := "Open Findings";
     value := VInt (open_findings findings);
     delta := if 0 <? critical_findings findings
              then Some (Py.str_of_int (critical_findings findings)
                         ++ " critical")
              else None;
     delta_color := "off" |}.

(** The row of score cards, left to right. *)
Definition score_cards (control_status : Snapshot.t)
    (findings : list Finding.t) : list Metric :=
  [ score_metric control_status;
    passing_metric control_status;
    failing_metric control_status;
    open_findings_metric findings ].

(** ** Executive Summary: the requirement cards *)

Definition dq : string := String (ascii_of_nat 34) EmptyString.
Definition nl : string := String (ascii_of_nat 10) EmptyString.

Definition card_icon (status : string) : string :=
  if String.eqb status "pass" then "✅" else "❌".

(** The variable [color] of the loop; the markup does not use it. *)
Definition card_color (status : string) : string :=
  if String.eqb status "pass" then "green" else "red".

Definition card_background (status : string) : string :=
  if String.eqb status "pass" then "#d4edda" else "#f8d7da".

(** [control['requirement_id'].replace('_', ' ').upper()] *)
Definition display_id (requirement_id : string) : string :=
  Py.upper (Py.replace_char "_" " " requirement_id).

(** The text of the f-string around its six holes. *)
Definition card_markup
    (background icon heading req_name details finding_count : string)
  : string :=
  nl ++ "            <div style=" ++ dq
  ++ "padding: 1rem; border-radius: 0.5rem; border: 1px solid #ddd; "
  ++ "margin-bottom: 1rem; background: " ++ background ++ ";"
  ++ dq ++ ">" ++ nl
  ++ "                <h4 style=" ++ dq ++ "margin: 0;" ++ dq ++ ">"
  ++ icon ++ " " ++ heading ++ "</h4>" ++ nl
  ++ "                <p style=" ++ dq
  ++ "margin: 0.5rem 0 0 0; font-weight: bold;" ++ dq ++ ">"
  ++ req_name ++ "</p>" ++ nl
  ++ "                <p style=" ++ dq
  ++ "margin: 0.25rem 0 0 0; font-size: 0.9rem; color: #666;" ++ dq ++ ">"
  ++ details ++ "</p>" ++ nl
  ++ "                <p style=" ++ dq
  ++ "margin: 0.25rem 0 0 0; font-size: 0.8rem;" ++ dq ++ ">Findings: "
  ++ finding_count ++ "</p>" ++ nl
  ++ "            </div>" ++ nl
  ++ "            ".

(** The markup of one card, as the f-string builds it. *)
Definition card_html (control : ControlStatus.t) (req_name : string)
  : string :=
  let status := ControlStatus.status control in
  let icon := card_icon status in
  card_markup
    (card_background status)
    icon
    (display_id (ControlStatus.requirement_id control))
    req_name
    (ControlStatus.details control)
    (Py.str_of_int (ControlStatus.finding_count control)).

(** One card: the column [i % 3] it is drawn in and its markup. *)
Record Card := mkCard {
  column : nat;
  html : string
}.

Definition requirement_card (requirements : list Requirement.t)
    (i : nat) (control : ControlStatus.t) : Card :=
  let req_name :=
    get_requirement_name (ControlStatus.requirement_id control) requirements in
  {| column := Nat.modulo i 3;
     html := card_html control req_name |}.

(** [for i, control in enumerate(...)], counting from [i]. *)
Fixpoint requirement_cards_from (requirements : list Requirement.t)
    (i : nat) (controls : list ControlStatus.t) : list Card :=
  match controls with
  | [] => []
  | control :: rest =>
      requirement_card requirements i control
      :: requirement_cards_from requirements (S i) rest
  end.

Definition requirement_cards (control_status : Snapshot.t)
    (requirements : list Requirement.t) : list Card :=
  requirement_cards_from requirements 0 (Snapshot.controls control_status).

(** ** Requirement Details: the join for the selected requirement *)

(** One expander of the findings list. *)
Record Expander := mkExpander {
  expander_title : string;
  expander_body : list string
}.

Definition finding_expander (finding : Finding.t) : Expander :=
  let severity := Finding.severity finding in
  let status_icon :=
    if String.eqb (Finding.status finding) "open" then "🔴" else "🟢" in
  {| expander_title :=
       status_icon ++ " [" ++ Py.upper severity ++ "] "
       ++ Finding.title finding;
     expander_body :=
       [ "**ID:** " ++ Finding.id finding;
         "**Status:** " ++ Py.upper (Finding.status finding);
         "**Resource:** `" ++ Finding.resource_id finding ++ "`";
         "**Description:** " ++ Finding.description finding;
         "**Remediation:** " ++ Finding.remediation finding;
         "**Detected:** " ++ Finding.detected_at finding ] |}.

(** What the page shows below the selector when both lookups succeed. *)
Record Detail := mkDetail {
  status_header : string;
  req_info : Requirement.t;
  control : ControlStatus.t;
  req_findings : list Finding.t;
  expanders : list Expander
}.

(** [next((c for c in controls if c["requirement_id"] == selected_req), None)] *)
Definition find_control (selected_req : string)
    (controls : list ControlStatus.t) : option ControlStatus.t :=
  find (fun c => String.eqb (ControlStatus.requirement_id c) selected_req)
       controls.

(** [next((r for r in requirements if r["id"] == selected_req), None)] *)
Definition find_req_info (selected_req : string)
    (requirements : list Requirement.t) : option Requirement.t :=
  find (fun r => String.eqb (Requirement.id r) selected_req) requirements.

(** [[f for f in findings if f["requirement_id"] == selected_req]] *)
Definition findings_of (selected_req : string)
    (findings : list Finding.t) : list Finding.t :=
  filter (fun f => String.eqb (Finding.requirement_id f) selected_req)
         findings.

(** The body of the page: [None] when the guard [if control and req_info]
    fails and nothing is drawn.  A row that was found is a dict with keys,
    which counts as true, so the guard fails exactly when a lookup gave
    [None]. *)
Definition requirement_detail (selected_req : string)
    (requirements : list Requirement.t) (control_status : Snapshot.t)
    (findings : list Finding.t) : option Detail :=
  match find_control selected_req (Snapshot.controls control_status),
        find_req_info selected_req requirements with
  | Some c, Some r =>
      let status := ControlStatus.status c in
      let icon := if String.eqb status "pass" then "✅" else "❌" in
      let fs := findings_of selected_req findings in
      Some {| status_header :=
                "### " ++ icon ++ " Status: **" ++ Py.upper status ++ "**";
              req_info := r;
              control := c;
              req_findings := fs;
              expanders := map finding_expander fs |}
  | _, _ => None
  end.

(** ** Findings: the filter *)

(** The list comprehension behind [filtered]; the three multiselect widgets
    return lists of strings. *)
Definition filtered (findings : list Finding.t)
    (severity_filter status_filter req_filter : list string)
  : list Finding.t :=
  filter (fun f =>
            Py.str_in (Finding.severity f) severity_filter
            && Py.str_in (Finding.status f) status_filter
            && Py.str_in (Finding.requirement_id f) req_filter)
         findings.

(** The options and defaults of the three widgets. *)
Definition severity_options : list string :=
  ["critical"; "high"; "medium"; "low"].

Definition status_options : list string := ["open"; "remediated"].

Definition status_default : list string := ["open"].

Definition req_options (requirements : list Requirement.t) : list string :=
  map Requirement.id requirements.

(** ** Findings: the table and its CSV export *)

(** A data frame of text cells: column labels and rows, no index. *)
Record DataFrame := mkDataFrame {
  columns : list string;
  rows : list (list string)
}.

(** [df[[...]]] picks these seven keys, in this order. *)
Definition export_row (f : Finding.t) : list string :=
  [ Finding.id f; Finding.severity f; Finding.status f;
    Finding.requirement_id f; Finding.title f; Finding.resource_id f;
    Finding.detected_at f ].

(** [df.columns = [...]] *)
Definition export_columns : list string :=
  ["ID"; "Severity"; "Status"; "Requirement"; "Title"; "Resource";
   "Detected"].

Definition findings_frame (fs : list Finding.t) : DataFrame :=
  {| columns := export_columns; rows := map export_row fs |}.

(** The CSV writer behind [df.to_csv(index=False)] with its defaults: comma
    delimiter, the double quote as quote character, minimal quoting, quotes
    doubled inside a quoted field, and the line separator of the system, a
    line feed, after every record. *)

Definition comma : ascii := ascii_of_nat 44.
Definition quote : ascii := ascii_of_nat 34.
Definition LF : ascii := ascii_of_nat 10.
Definition CR : ascii := ascii_of_nat 13.

(** A field is quoted when it holds one of these. *)
Definition special (c : ascii) : bool :=
  Ascii.eqb c comma || Ascii.eqb c quote || Ascii.eqb c LF || Ascii.eqb c CR.

Fixpoint has_special (s : string) : bool :=
  match s with
  | EmptyString => false
  | String c s' => special c || has_special s'
  end.

Fixpoint double_quotes (s : string) : string :=
  match s with
  | EmptyString => EmptyString
  | String c s' =>
      if Ascii.eqb c quote then String quote (String quote (double_quotes s'))
      else String c (double_quotes s')
  end.

Definition csv_field (s : string) : string :=
  if has_special s then String quote (double_quotes s ++ String quote "")
  else s.

Fixpoint join_fields (cells : list string) : string :=
  match cells with
  | [] => ""
  | [c] => csv_field c
  | c :: rest => csv_field c ++ String comma (join_fields rest)
  end.

(** One record without its terminator; a record that would be empty although
    it has a field is written as an empty quoted field. *)
Definition csv_record (cells : list string) : string :=
  match cells with
  | [] => ""
  | _ :: _ =>
      match join_fields cells with
      | EmptyString => String quote (String quote "")
      | text => text
      end
  end.

Fixpoint write_records (records : list (list string)) : string :=
  match records with
  | [] => ""
  | r :: rest => csv_record r ++ String LF (write_records rest)
  end.

Definition to_csv (df : DataFrame) : string :=
  write_records (columns df :: rows df).

(** [csv]: the text handed to the download button; [None] in the [else]
    branch of [if filtered:], where the page shows a notice and no export. *)
Definition csv (fs : list Finding.t) : option string :=
  match fs with
  | [] => None
  | _ :: _ => Some (to_csv (findings_frame fs))
  end.

(** The Findings page: the caption and the export, from the widgets' state. *)
Record FindingsPage := mkFindingsPage {
  shown : nat;
  total : nat;
  table : option DataFrame;
  download : option string
}.

Definition findings_page (findings : list Finding.t)
    (severity_filter status_filter req_filter : list string)
  : FindingsPage :=
  let fs := filtered findings severity_filter status_filter req_filter in
  {| shown := List.length fs;
     total := List.length findings;
     table := match fs with [] => None | _ :: _ => Some (findings_frame fs) end;
     download := csv fs |}.

(** *** Reading the export back

    The text of the export is judged through a reader of the same dialect:
    [split_lines] cuts a text at its line feeds, [read_csv] parses records. *)

Fixpoint split_lines_from (line : string) (s : string) : list string :=
  match s with
  | EmptyString =>
      match line with EmptyString => [] | _ => [line] end
  | String c s' =>
      if Ascii.eqb c LF then line :: split_lines_from "" s'
      else split_lines_from (line ++ String c "") s'
  end.

Definition split_lines (s : string) : list string := split_lines_from "" s.

Inductive ReaderState :=
| StartField
| InField
| InQuotedField
| QuoteInQuotedField.

Record Reader := mkReader {
  done_records : list (list string);
  done_fields : list string;
  field : string;
  state : ReaderState
}.

Definition add_char (c : ascii) (st : ReaderState) (r : Reader) : Reader :=
  {| done_records := done_records r;
     done_fields := done_fields r;
     field := field r ++ String c "";
     state := st |}.

Definition end_field (r : Reader) : Reader :=
  {| done_records := done_records r;
     done_fields := (done_fields r ++ [field r])%list;
     field := "";
     state := StartField |}.

Definition end_record (r : Reader) : Reader :=
  {| done_records :=
       (done_records r ++ [(done_fields r ++ [field r])%list])%list;
     done_fields := [];
     field := "";
     state := StartField |}.

Definition set_state (st : ReaderState) (r : Reader) : Reader :=
  {| done_records := done_records r;
     done_fields := done_fields r;
     field := field r;
     state := st |}.

Definition read_char (r : Reader) (c : ascii) : Reader :=
  match state r with
  | StartField =>
      if Ascii.eqb c quote then set_state InQuotedField r
      else if Ascii.eqb c comma then end_field r
      else if Ascii.eqb c LF then end_record r
      else add_char c InField r
  | InField =>
      if Ascii.eqb c comma then end_field r
      else if Ascii.eqb c LF then end_record r
      else add_char c InField r
  | InQuotedField =>
      if Ascii.eqb c quote then set_state QuoteInQuotedField r
      else add_char c InQuotedField r
  | QuoteInQuotedField =>
      if Ascii.eqb c quote then add_char c InQuotedField r
      else if Ascii.eqb c comma then end_field r
      else if Ascii.eqb c LF then end_record r
      else add_char c InField r
  end.

Fixpoint read_chars (r : Reader) (s : string) : Reader :=
  match s with
  | EmptyString => r
  | String c s' => read_chars (read_char r c) s'
  end.

Definition new_reader : Reader :=
  {| done_records := []; done_fields := []; field := ""; state := StartField |}.

(** The records of a text; an unterminated last record counts. *)
Definition read_csv (s : string) : list (list string) :=
  let r := read_chars new_reader s in
  match state r, done_fields r, field r with
  | StartField, [], EmptyString => done_records r
  | _, _, _ => done_records (end_record r)
  end.

(** ** Trend Analysis: the event annotations *)

(** [==] on the values of a datetime column. *)
Definition timestamp_eq (a b : Timestamp) : bool :=
  match a, b with
  | At m, At n => m =? n
  | _, _ => false
  end.

(** What [fig.add_annotation] is given. *)
Record Annotation := mkAnnotation {
  x : Timestamp;
  y : Q;
  text : string;
  showarrow : bool;
  arrowhead : Z;
  arrowsize : Z;
  arrowwidth : Z;
  ax : Z;
  ay : Z;
  font_size : Z
}.

Definition event_annotation (event_date : Timestamp) (score : Q)
    (event : Event.t) : Annotation :=
  {| x := event_date;
     y := score;
     text := Event.event event;
     showarrow := true;
     arrowhead := 2;
     arrowsize := 1;
     arrowwidth := 2;
     ax := 0;
     ay := -40;
     font_size := 10 |}.

(** [df_trend[df_trend["date"] == event_date]["compliance_score"].values] *)
Definition score_at_date (df_trend : list TrendPoint.t)
    (event_date : Timestamp) : list Q :=
  map TrendPoint.compliance_score
      (filter (fun p => timestamp_eq (TrendPoint.date p) event_date) df_trend).

Section Trend.

(** [pd.to_datetime] on the date of an event; [None] when it raises. *)
Variable to_datetime : string -> option Timestamp.

(** The body of [for event in trend_data["events"]], on the annotations
    that the figure holds so far. *)
Definition add_event_annotation (df_trend : list TrendPoint.t)
    (annotations : list Annotation) (event : Event.t)
  : option (list Annotation) :=
  match to_datetime (Event.date event) with
  | None => None
  | Some event_date =>
      match score_at_date df_trend event_date with
      | [] => Some annotations
      | score :: _ =>
          Some (annotations
                ++ [event_annotation event_date score event])%list
      end
  end.

Fixpoint add_event_annotations (df_trend : list TrendPoint.t)
    (annotations : list Annotation) (events : list Event.t)
  : option (list Annotation) :=
  match events with
  | [] => Some annotations
  | event :: rest =>
      match add_event_annotation df_trend annotations event with
      | None => None
      | Some annotations' => add_event_annotations df_trend annotations' rest
      end
  end.

(** The annotations of the figure after the loop. *)
Definition trend_annotations (df_trend : list TrendPoint.t)
    (events : list Event.t) : option (list Annotation) :=
  add_event_annotations df_trend [] events.

End Trend.

(** ** Data loader: four memoised reads *)

(** A parsed JSON or YAML document. *)
#[warnings="-register-all"]
Inductive Doc :=
| DNull
| DBool (b : bool)
| DNum (q : Q)
| DStr (s : string)
| DList (items : list Doc)
| DDict (entries : list (string * Doc)).

Inductive Error :=
| FileNotFoundError
| ParseError
| KeyError
| TypeError.

Inductive result (A : Type) :=
| Ok (a : A)
| Raise (e : Error).

Arguments Ok {A} a.
Arguments Raise {A} e.

(** The four cached functions. *)
Inductive Loader :=
| LoadRequirements
| LoadControlStatus
| LoadFindings
| LoadTrendData.

Definition loader_eqb (a b : Loader) : bool :=
  match a, b with
  | LoadRequirements, LoadRequirements
  | LoadControlStatus, LoadControlStatus
  | LoadFindings, LoadFindings
  | LoadTrendData, LoadTrendData => true
  | _, _ => false
  end.

(** The process: the files on disk, the cache of [st.cache_data] with an
    entry per function, and the log of the files opened so far. *)
Record World := mkWorld {
  files : string -> option string;
  cache : Loader -> option Doc;
  opened : list string
}.

Definition M (A : Type) : Type := World -> result A * World.

Definition ret {A} (a : A) : M A := fun w => (Ok a, w).

Definition raise {A} (e : Error) : M A := fun w => (Raise e, w).

Definition bind {A B} (m : M A) (k : A -> M B) : M B :=
  fun w =>
    match m w with
    | (Ok a, w') => k a w'
    | (Raise e, w') => (Raise e, w')
    end.

Notation "x <- m ;; k" := (bind m (fun x => k))
  (at level 61, m at next level, right associativity).

(** [with open(path) as f: ... f ...]: the content of the file. *)
Definition open_file (path : string) : M string :=
  fun w =>
    match files w path with
    | None => (Raise FileNotFoundError, w)
    | Some content =>
        (Ok content,
         {| files := files w; cache := cache w;
            opened := (opened w ++ [path])%list |})
    end.

Fixpoint assoc (key : string) (entries : list (string * Doc)) : option Doc :=
  match entries with
  | [] => None
  | (k, v) :: rest => if String.eqb k key then Some v else assoc key rest
  end.

(** [doc[key]] with a string key. *)
Definition getitem (doc : Doc) (key : string) : M Doc :=
  match doc with
  | DDict entries =>
      match assoc key entries with
      | Some v => ret v
      | None => raise KeyError
      end
  | _ => raise TypeError
  end.

(** [@st.cache_data] on a function without arguments: a stored value is
    returned without running the body; the value of a run that returns is
    stored; a run that raises stores nothing. *)
Definition cache_data (f : Loader) (body : M Doc) : M Doc :=
  fun w =>
    match cache w f with
    | Some v => (Ok v, w)
    | None =>
        match body w with
        | (Ok v, w') =>
            (Ok v,
             {| files := files w';
                cache := fun g => if loader_eqb g f then Some v
                                  else cache w' g;
                opened := opened w' |})
        | (Raise e, w') => (Raise e, w')
        end
    end.

Section Loaders.

(** The directory of the datasets and the two parsers; a parser gives
    [None] when it raises. *)
Variable DATA_DIR : string.
Variable yaml_safe_load : string -> option Doc.
Variable json_load : string -> option Doc.

Definition data_file (file_name : string) : string :=
  DATA_DIR ++ "/" ++ file_name.

Definition parse (parser : string -> option Doc) (content : string)
  : M Doc :=
  match parser content with
  | Some doc => ret doc
  | None => raise ParseError
  end.

Definition load_requirements_body : M Doc :=
  content <- open_file (data_file "pci_requirements.yaml") ;;
  doc <- parse yaml_safe_load content ;;
  getitem doc "requirements".

Definition load_control_status_body : M Doc :=
  content <- open_file (data_file "simulated_control_status.json") ;;
  parse json_load content.

Definition load_findings_body : M Doc :=
  content <- open_file (data_file "simulated_findings.json") ;;
  doc <- parse json_load content ;;
  getitem doc "findings".

Definition load_trend_data_body : M Doc :=
  content <- open_file (data_file "simulated_trend.json") ;;
  parse json_load content.

Definition load_requirements : M Doc :=
  cache_data LoadRequirements load_requirements_body.

Definition load_control_status : M Doc :=
  cache_data LoadControlStatus load_control_status_body.

Definition load_findings : M Doc :=
  cache_data LoadFindings load_findings_body.

Definition load_trend_data : M Doc :=
  cache_data LoadTrendData load_trend_data_body.

Definition load (f : Loader) : M Doc :=
  match f with
  | LoadRequirements => load_requirements
  | LoadControlStatus => load_control_status
  | LoadFindings => load_findings
  | LoadTrendData => load_trend_data
  end.

(** What can happen to the process between two calls: a file is written,
    removed or replaced by something outside, or some loader is called. *)
Inductive step : World -> World -> Prop :=
| step_files (w : World) (files' : string -> option string) :
    step w {| files := files'; cache := cache w; opened := opened w |}
| step_load (w : World) (f : Loader) :
    step w (snd (load f w)).

Inductive steps : World -> World -> Prop :=
| steps_refl (w : World) : steps w w
| steps_step (w1 w2 w3 : World) :
    step w1 w2 -> steps w2 w3 -> steps w1 w3.

End Loaders.

(** ** Requirement Details: the selector *)

Module DetailsPage.

(** [d[k] = v]: a key that the dict has keeps its place and takes the new
    value, a new key goes last. *)
Fixpoint dict_set (d : list (string * string)) (k v : string)
  : list (string * string) :=
  match d with
  | [] => [(k, v)]
  | (k', v') :: d' =>
      if String.eqb k' k then (k', v) :: d'
      else (k', v') :: dict_set d' k v
  end.

(** [d[k]]; [None] when it raises KeyError. *)
Fixpoint dict_getitem (d : list (string * string)) (k : string)
  : option string :=
  match d with
  | [] => None
  | (k', v') :: d' => if String.eqb k' k then Some v' else dict_getitem d' k
  end.

(** [list(d.keys())] *)
Definition dict_keys (d : list (string * string)) : list string :=
  map fst d.

(** The label of a requirement in the selector. *)
Definition label (r : Requirement.t) : string :=
  display_id (Requirement.id r) ++ " - " ++ Requirement.name r.

(** The dict comprehension, entry after entry. *)
Fixpoint fill (d : list (string * string))
    (requirements : list Requirement.t) : list (string * string) :=
  match requirements with
  | [] => d
  | r :: rest => fill (dict_set d (label r) (Requirement.id r)) rest
  end.

Definition req_options (requirements : list Requirement.t)
  : list (string * string) :=
  fill [] requirements.

(** The page for the label that the selector returns; the selector returns
    [None] when it has no option, and [req_options[None]] raises. *)
Definition page (requirements : list Requirement.t)
    (control_status : Snapshot.t) (findings : list Finding.t)
    (selected_label : option string) : result (option Detail) :=
  match selected_label with
  | None => Raise KeyError
  | Some l =>
      match dict_getitem (req_options requirements) l with
      | None => Raise KeyError
      | Some selected_req =>
          Ok (requirement_detail selected_req requirements control_status
                findings)
      end
  end.

End DetailsPage.

(** * Specifications *)

(** ** Words of the specification *)

(** [selection keep l l']: [l'] holds exactly the elements of [l] that
    satisfy [keep], each as often as in [l] and in the order of [l]. *)
Inductive selection {A : Type} (keep : A -> Prop) : list A -> list A -> Prop :=
| selection_nil : selection keep [] []
| selection_keep (a : A) (l l' : list A) :
    keep a -> selection keep l l' -> selection keep (a :: l) (a :: l')
| selection_drop (a : A) (l l' : list A) :
    ~ keep a -> selection keep l l' -> selection keep (a :: l) l'.

(** A finding passes the three selections. *)
Definition selected (severity_set status_set requirement_set : list string)
    (f : Finding.t) : Prop :=
  In (Finding.severity f) severity_set
  /\ In (Finding.status f) status_set
  /\ In (Finding.requirement_id f) requirement_set.


(** [a] is the first element of [l] that satisfies [P]. *)
Definition first_such {A : Type} (P : A -> Prop) (l : list A) (a : A) : Prop :=
  exists before after : list A,
    l = (before ++ a :: after)%list
    /\ P a
    /\ forall b : A, In b before -> ~ P b.

(** Two strings that differ at most in the case of their letters A-Z. *)
Definition same_letter (a b : ascii) : Prop :=
  a = b
  \/ (Py.is_upper a = true /\ N_of_ascii b = (N_of_ascii a + 32)%N)
  \/ (Py.is_upper b = true /\ N_of_ascii a = (N_of_ascii b + 32)%N).

Fixpoint eq_ignoring_case (s k : string) : Prop :=
  match s, k with
  | EmptyString, EmptyString => True
  | String a s', String b k' => same_letter a b /\ eq_ignoring_case s' k'
  | _, _ => False
  end.

(** No letter of the string is a capital. *)
Fixpoint no_upper (s : string) : Prop :=
  match s with
  | EmptyString => True
  | String c s' => Py.is_upper c = false /\ no_upper s'
  end.



(** The first line of every export. *)
Definition header_line : string :=
  "ID,Severity,Status,Requirement,Title,Resource,Detected".

Fixpoint has_LF (s : string) : bool :=
  match s with
  | EmptyString => false
  | String c s' => Ascii.eqb c LF || has_LF s'
  end.


(** The state of the reader after the unquoted text [s], read from the
    state [st]. *)
Definition after_plain (st : ReaderState) (s : string) : ReaderState :=
  match s with
  | EmptyString => st
  | String _ _ => InField
  end.

(** After a field, the reader is in a state in which a comma ends the field
    and a line feed ends the record. *)
Definition field_end (st : ReaderState) : Prop :=
  st = StartField \/ st = InField \/ st = QuoteInQuotedField.


(** The colours that the two palettes can give. *)
Definition severity_palette : list string :=
  ["#dc3545"; "#fd7e14"; "#ffc107"; "#28a745"; "#6c757d"].

Definition status_palette : list string :=
  ["#28a745"; "#dc3545"; "#6c757d"].



(** The file of each loader, its parser and the key that it returns of the
    parsed document, if any. *)
Definition loader_file (f : Loader) : string :=
  match f with
  | LoadRequirements => "pci_requirements.yaml"
  | LoadControlStatus => "simulated_control_status.json"
  | LoadFindings => "simulated_findings.json"
  | LoadTrendData => "simulated_trend.json"
  end.

Definition loader_parser (yaml_safe_load json_load : string -> option Doc)
    (f : Loader) : string -> option Doc :=
  match f with
  | LoadRequirements => yaml_safe_load
  | _ => json_load
  end.

Definition loader_key (f : Loader) : option string :=
  match f with
  | LoadRequirements => Some "requirements"
  | LoadFindings => Some "findings"
  | LoadControlStatus | LoadTrendData => None
  end.

(** What a content of a file is worth to a loader: the parsed document or
    its value under the key, or the error of the step that fails. *)
Definition value_of_content (parser : string -> option Doc)
    (key : option string) (content : string) : result Doc :=
  match parser content with
  | None => Raise ParseError
  | Some doc =>
      match key with
      | None => Ok doc
      | Some k =>
          match doc with
          | DDict entries =>
              match assoc k entries with
              | Some v => Ok v
              | None => Raise KeyError
              end
          | _ => Raise TypeError
          end
      end
  end.

(** The four loads at the start of the script, in their order. *)
Definition load_data (DATA_DIR : string)
    (yaml_safe_load json_load : string -> option Doc)
  : M (Doc * Doc * Doc * Doc) :=
  requirements <- load_requirements DATA_DIR yaml_safe_load ;;
  control_status <- load_control_status DATA_DIR json_load ;;
  findings <- load_findings DATA_DIR json_load ;;
  trend_data <- load_trend_data DATA_DIR json_load ;;
  ret (requirements, control_status, findings, trend_data).

(** ** A small dataset *)

Definition req_1 : Requirement.t :=
  Requirement.mk "req_1" "Network Security Controls"
    "Install and maintain network security controls" "lab_01_vpc" "VPC".

Definition req_8 : Requirement.t :=
  Requirement.mk "req_8" "Identify Users and Authenticate Access"
    "Identify users and authenticate access to system components"
    "lab_08_iam" "IAM".

Definition example_requirements : list Requirement.t := [req_1; req_8].

Definition finding_1 : Finding.t :=
  Finding.mk "F-001" "req_1" "critical" "open"
    "Security group open to the world" "Ingress from 0.0.0.0/0 on port 22"
    "sg-0a1b2c" "Restrict the ingress rule" "2024-01-10T08:00:00Z".

Definition finding_2 : Finding.t :=
  Finding.mk "F-002" "req_8" "high" "open"
    "Root account without MFA" "The root user has no MFA device"
    "iam-root" "Enable MFA" "2024-01-11T09:30:00Z".

Definition finding_3 : Finding.t :=
  Finding.mk "F-003" "req_1" "low" "remediated"
    "Flow logs disabled" "VPC flow logs were not enabled"
    "vpc-12ab" "Enable flow logs" "2024-01-05T10:00:00Z".

Definition example_findings : list Finding.t :=
  [finding_1; finding_2; finding_3].

(** A finding whose title spans two lines. *)
Definition finding_two_lines : Finding.t :=
  Finding.mk "F-004" "req_1" "medium" "open"
    ("Bastion host" ++ nl ++ "accepts password logins")
    "Password authentication is enabled" "i-0abc"
    "Disable password authentication" "2024-01-12T07:15:00Z".

Definition control_1 : ControlStatus.t :=
  ControlStatus.mk "req_1" "fail" "1 open finding" 2
    "2024-01-16T00:00:00Z" "s3://evidence/req_1/".

Definition control_8 : ControlStatus.t :=
  ControlStatus.mk "req_8" "unknown" "No evidence collected" 1
    "2024-01-16T00:00:00Z" "s3://evidence/req_8/".

Definition example_snapshot : Snapshot.t :=
  Snapshot.mk "2024-01-16" (Summary.mk (267 # 4) 4 2) [control_1; control_8].


Definition event_in_range : Event.t :=
  Event.mk "2024-01-05" "Enabled MFA on root".



(** A process with one dataset on disk and nothing cached, and parsers that
    know the content of that file. *)
Definition example_yaml (content : string) : option Doc :=
  if String.eqb content "requirements: []"
  then Some (DDict [("requirements", DList [])])
  else None.

Definition example_json (content : string) : option Doc :=
  if String.eqb content "{}" then Some (DDict []) else None.

Definition example_world : World :=
  {| files := fun path =>
       if String.eqb path "data/pci_requirements.yaml"
       then Some "requirements: []" else None;
     cache := fun _ => None;
     opened := [] |}.

(** The same process after the file has been removed. *)
Definition without_files (w : World) : World :=
  {| files := fun _ => None; cache := cache w; opened := opened w |}.

(** A process with the four datasets on disk and nothing cached, and a JSON
    parser that knows the three JSON contents. *)
Definition findings_content : string :=
  "{" ++ dq ++ "findings" ++ dq ++ ": []}".

Definition example_json_load (content : string) : option Doc :=
  if String.eqb content findings_content
  then Some (DDict [("findings", DList [])])
  else if String.eqb content "{}" then Some (DDict [])
  else None.

Definition example_full_world : World :=
  {| files := fun path =>
       if String.eqb path "data/pci_requirements.yaml"
       then Some "requirements: []"
       else if String.eqb path "data/simulated_findings.json"
       then Some findings_content
       else if String.eqb path "data/simulated_control_status.json"
       then Some "{}"
       else if String.eqb path "data/simulated_trend.json"
       then Some "{}"
       else None;
     cache := fun _ => None;
     opened := [] |}.

(** ** Lemmas on lists and strings *)

Lemma str_in_In (s : string) (l : list string) :
  Py.str_in s l = true <-> In s l.
Proof.
  unfold Py.str_in. rewrite existsb_exists. split.
  - intros [y [Hy He]]. apply String.eqb_eq in He. now subst.
  - intros H. exists s. split; [assumption | apply String.eqb_refl].
Qed.

Lemma selection_filter {A : Type} (keep : A -> Prop) (test : A -> bool)
    (l : list A) :
  (forall a, test a = true <-> keep a) ->
  selection keep l (filter test l).
Proof.
  intros Ht. induction l as [|a l IH]; simpl.
  - constructor.
  - destruct (test a) eqn:E.
    + apply selection_keep; [now apply Ht | exact IH].
    + apply selection_drop; [| exact IH].
      intros K. apply Ht in K. congruence.
Qed.

Lemma selection_unique {A : Type} (keep : A -> Prop) (l l1 l2 : list A) :
  selection keep l l1 -> selection keep l l2 -> l1 = l2.
Proof.
  intros H1. revert l2.
  induction H1 as [|a l l1 Ka _ IH|a l l1 Ka _ IH]; intros l2 H2;
    inversion H2; subst; try contradiction.
  - reflexivity.
  - f_equal. now apply IH.
  - now apply IH.
Qed.

Lemma selection_In {A : Type} (keep : A -> Prop) (l l' : list A) :
  selection keep l l' -> forall a, In a l' <-> In a l /\ keep a.
Proof.
  induction 1 as [|a l l' Ka _ IH|a l l' Ka _ IH]; intros b; simpl.
  - tauto.
  - rewrite IH. split.
    + intros [E|[Hb Kb]]; [subst; tauto | tauto].
    + intros [[E|Hb] Kb]; [now left | right; tauto].
  - rewrite IH. split.
    + tauto.
    + intros [[E|Hb] Kb]; [subst; contradiction | tauto].
Qed.

Lemma selected_test (S T R : list string) (f : Finding.t) :
  Py.str_in (Finding.severity f) S
  && Py.str_in (Finding.status f) T
  && Py.str_in (Finding.requirement_id f) R = true
  <-> selected S T R f.
Proof.
  unfold selected. rewrite !andb_true_iff, !str_in_In. tauto.
Qed.

Lemma find_first_such {A : Type} (test : A -> bool) (P : A -> Prop)
    (l : list A) :
  (forall a, test a = true <-> P a) ->
  match find test l with
  | Some a => first_such P l a
  | None => forall a, In a l -> ~ P a
  end.
Proof.
  intros Ht. induction l as [|b l IH]; simpl.
  - tauto.
  - destruct (test b) eqn:E.
    + exists [], l. repeat split; [now apply Ht | intros ? []].
    + destruct (find test l) as [a|].
      * destruct IH as [before [after [El [Pa Hb]]]].
        exists (b :: before), after. subst l. repeat split; trivial.
        intros c [Ec|Hc]; [subst c; rewrite <- Ht; congruence | now apply Hb].
      * intros a [Ea|Ha]; [subst a; rewrite <- Ht; congruence | now apply IH].
Qed.

Lemma first_such_unique {A : Type} (P : A -> Prop) (l : list A) (a b : A) :
  first_such P l a -> first_such P l b -> a = b.
Proof.
  revert a b. induction l as [|c l IH]; intros a b
    [ba [aa [Ea [Pa Ha]]]] [bb [ab [Eb [Pb Hb]]]].
  - destruct ba; discriminate.
  - destruct ba as [|x ba], bb as [|y bb]; simpl in *.
    + congruence.
    + injection Ea as -> ->. injection Eb as <- _.
      exfalso. apply (Hb a); auto.
    + injection Ea as <- _. injection Eb as -> ->.
      exfalso. apply (Ha b); auto.
    + injection Ea as <- El. injection Eb as _ El'.
      apply IH.
      * exists ba, aa. repeat split; auto.
      * exists bb, ab. repeat split; auto.
Qed.

Lemma filtered_selection (findings : list Finding.t) (S T R : list string) :
  selection (selected S T R) findings (filtered findings S T R).
Proof. apply selection_filter. intros f. apply selected_test. Qed.

Lemma filtered_In (findings : list Finding.t) (S T R : list string)
    (f : Finding.t) :
  In f (filtered findings S T R) <-> In f findings /\ selected S T R f.
Proof. apply selection_In, filtered_selection. Qed.

(** ** The name lookup *)

(** C5.  [get_requirement_name] returns the name of the first requirement
    whose id is the given id, and the given id itself when no requirement of
    the list has that id.  The result is a string in either case. *)
Theorem get_requirement_name_first_or_id (req_id : string)
    (requirements : list Requirement.t) :
  (forall req : Requirement.t,
      first_such (fun r => Requirement.id r = req_id) requirements req ->
      get_requirement_name req_id requirements = Requirement.name req)
  /\ ((forall r : Requirement.t,
          In r requirements -> Requirement.id r <> req_id) ->
      get_requirement_name req_id requirements = req_id).
Proof.
  induction requirements as [|r rest [IHfound IHnone]]; simpl; split.
  - intros req [before [after [E _]]]. destruct before; discriminate.
  - reflexivity.
  - intros req Hfirst. destruct (String.eqb (Requirement.id r) req_id) eqn:E.
    + apply String.eqb_eq in E. f_equal.
      apply (first_such_unique (fun r => Requirement.id r = req_id)
               (r :: rest)); [| exact Hfirst].
      exists [], rest. repeat split; [exact E | intros ? []].
    + apply String.eqb_neq in E. apply IHfound.
      destruct Hfirst as [before [after [El [Hid Hb]]]].
      destruct before as [|b before]; simpl in El.
      * injection El as -> _. contradiction.
      * injection El as <- ->. exists before, after. repeat split; trivial.
        intros c Hc. apply Hb. now right.
  - intros Hnone. destruct (String.eqb (Requirement.id r) req_id) eqn:E.
    + apply String.eqb_eq in E. exfalso. apply (Hnone r); auto.
    + apply IHnone. intros c Hc. apply Hnone. now right.
Qed.

Lemma get_requirement_name_first_or_id_witness :
  get_requirement_name "req_8" example_requirements
  = "Identify Users and Authenticate Access"
  /\ get_requirement_name "req_99" example_requirements = "req_99".
Proof.
  destruct (get_requirement_name_first_or_id "req_8" example_requirements)
    as [Hfound _].
  destruct (get_requirement_name_first_or_id "req_99" example_requirements)
    as [_ Hnone].
  split.
  - apply (Hfound req_8). exists [req_1], []. repeat split.
    intros b [<-|[]]. discriminate.
  - apply Hnone. intros r [<-|[<-|[]]]; discriminate.
Defined.

(** ** The findings filter *)

(** C1.  [filtered] is exactly the findings whose severity, status and
    requirement id each belong to the corresponding selection, in the order
    of the input; an empty selection gives the empty list. *)
Theorem filtered_is_the_selection (findings : list Finding.t)
    (S T R : list string) :
  selection (selected S T R) findings (filtered findings S T R)
  /\ (forall l : list Finding.t,
         selection (selected S T R) findings l -> l = filtered findings S T R)
  /\ (forall f : Finding.t,
         In f (filtered findings S T R) <-> In f findings /\ selected S T R f)
  /\ (S = [] \/ T = [] \/ R = [] -> filtered findings S T R = []).
Proof.
  pose proof (filtered_selection findings S T R) as Hsel.
  split; [exact Hsel |]. split; [| split].
  - intros l Hl. exact (selection_unique _ _ _ _ Hl Hsel).
  - apply selection_In. exact Hsel.
  - intros Hempty. pose proof (selection_In _ _ _ Hsel) as HIn.
    destruct (filtered findings S T R) as [|f l]; [reflexivity |].
    exfalso. destruct (proj1 (HIn f)) as [_ [HS [HT HR]]]; [now left |].
    destruct Hempty as [-> | [-> | ->]]; assumption.
Qed.

Lemma filtered_is_the_selection_witness :
  filtered example_findings severity_options status_default
           (req_options example_requirements)
  = [finding_1; finding_2]
  /\ filtered example_findings severity_options [] ["req_1"; "req_8"] = [].
Proof.
  destruct (filtered_is_the_selection example_findings severity_options
              status_default (req_options example_requirements))
    as [_ [Huniq _]].
  destruct (filtered_is_the_selection example_findings severity_options
              [] ["req_1"; "req_8"]) as [_ [_ [_ Hempty]]].
  split.
  - symmetry. apply Huniq.
    apply selection_keep; [unfold selected; simpl; tauto |].
    apply selection_keep; [unfold selected; simpl; tauto |].
    apply selection_drop; [| constructor].
    unfold selected; simpl. intros [_ [[H|[]] _]]. discriminate.
  - apply Hempty. right. left. reflexivity.
Defined.



(** ** The colour palettes *)

Lemma lower_char_same_letter (a b : ascii) :
  Py.is_upper b = false ->
  same_letter a b <-> Py.lower_char a = b.
Proof.
  intros Hb. unfold same_letter, Py.lower_char.
  destruct (Py.is_upper a) eqn:Ha.
  - split.
    + intros [E|[[_ E]|[Hb' _]]]; [congruence | | congruence].
      rewrite <- E. apply ascii_N_embedding.
    + intros E. right. left. split; [reflexivity |].
      subst b. apply N_ascii_embedding.
      unfold Py.is_upper in Ha. apply andb_true_iff in Ha.
      destruct Ha as [_ Ha]. apply N.leb_le in Ha. lia.
  - split.
    + intros [E|[[Ha' _]|[Hb' _]]]; congruence.
    + intros E. now left.
Qed.

Lemma lower_eq_ignoring_case (s k : string) :
  no_upper k ->
  eq_ignoring_case s k <-> Py.lower s = k.
Proof.
  revert k. induction s as [|a s IH]; intros [|b k] Hk; simpl in *.
  - tauto.
  - split; [tauto | discriminate].
  - split; [tauto | discriminate].
  - destruct Hk as [Hb Hk].
    rewrite (lower_char_same_letter a b Hb), (IH k Hk). split.
    + intros [-> ->]. reflexivity.
    + intros E. injection E as -> ->. tauto.
Qed.

Ltac palette_key H :=
  apply lower_eq_ignoring_case in H; [| simpl; tauto];
  unfold severity_color, status_color; rewrite H; reflexivity.

Ltac palette_miss H :=
  let E := fresh "E" in
  match goal with
  | |- context [String.eqb ?k ?s] =>
      destruct (String.eqb k s) eqn:E;
      [ exfalso; apply H; apply lower_eq_ignoring_case; [simpl; tauto |];
        apply String.eqb_eq in E; congruence
      | clear E ]
  end.

(** C6.  [severity_color] and [status_color] are defined on every string.
    A string that is critical, high, medium or low up to the case of its
    letters gets the colour of that severity, a string that is pass, fail or
    unknown up to case gets the colour of that status, and any other string
    gets the neutral colour. *)
Theorem palette_case_insensitive_with_default (s : string) :
  (eq_ignoring_case s "critical" -> severity_color s = "#dc3545")
  /\ (eq_ignoring_case s "high" -> severity_color s = "#fd7e14")
  /\ (eq_ignoring_case s "medium" -> severity_color s = "#ffc107")
  /\ (eq_ignoring_case s "low" -> severity_color s = "#28a745")
  /\ (~ eq_ignoring_case s "critical" -> ~ eq_ignoring_case s "high" ->
      ~ eq_ignoring_case s "medium" -> ~ eq_ignoring_case s "low" ->
      severity_color s = "#6c757d")
  /\ (eq_ignoring_case s "pass" -> status_color s = "#28a745")
  /\ (eq_ignoring_case s "fail" -> status_color s = "#dc3545")
  /\ (eq_ignoring_case s "unknown" -> status_color s = "#6c757d")
  /\ (~ eq_ignoring_case s "pass" -> ~ eq_ignoring_case s "fail" ->
      ~ eq_ignoring_case s "unknown" -> status_color s = "#6c757d").
Proof.
  repeat split.
  - intros H. palette_key H.
  - intros H. palette_key H.
  - intros H. palette_key H.
  - intros H. palette_key H.
  - intros H1 H2 H3 H4. unfold severity_color, severity_colors.
    cbn [Py.dict_get].
    palette_miss H1. palette_miss H2. palette_miss H3. palette_miss H4.
    reflexivity.
  - intros H. palette_key H.
  - intros H. palette_key H.
  - intros H. palette_key H.
  - intros H1 H2 H3. unfold status_color, status_colors.
    cbn [Py.dict_get].
    palette_miss H1. palette_miss H2. palette_miss H3.
    reflexivity.
Qed.

Lemma palette_case_insensitive_with_default_witness :
  severity_color "CRITICAL" = "#dc3545"
  /\ severity_color "High" = "#fd7e14"
  /\ severity_color "info" = "#6c757d"
  /\ status_color "Pass" = "#28a745"
  /\ status_color "UNKNOWN" = "#6c757d"
  /\ status_color "" = "#6c757d".
Proof.
  destruct (palette_case_insensitive_with_default "CRITICAL")
    as [Hcritical _].
  destruct (palette_case_insensitive_with_default "High")
    as [_ [Hhigh _]].
  destruct (palette_case_insensitive_with_default "info")
    as [_ [_ [_ [_ [Hother _]]]]].
  destruct (palette_case_insensitive_with_default "Pass")
    as [_ [_ [_ [_ [_ [Hpass _]]]]]].
  destruct (palette_case_insensitive_with_default "UNKNOWN")
    as [_ [_ [_ [_ [_ [_ [_ [Hunknown _]]]]]]]].
  destruct (palette_case_insensitive_with_default "")
    as [_ [_ [_ [_ [_ [_ [_ [_ Hempty]]]]]]]].
  refine (conj _ (conj _ (conj _ (conj _ (conj _ _))))).
  - apply Hcritical. simpl. unfold same_letter. simpl.
    repeat split; right; left; split; reflexivity.
  - apply Hhigh. simpl. unfold same_letter. simpl.
    repeat split; try (now left); right; left; split; reflexivity.
  - apply Hother; simpl; unfold same_letter; simpl; intros H;
      decompose [and or] H; discriminate.
  - apply Hpass. simpl. unfold same_letter. simpl.
    repeat split; try (now left); right; left; split; reflexivity.
  - apply Hunknown. simpl. unfold same_letter. simpl.
    repeat split; right; left; split; reflexivity.
  - apply Hempty; simpl; tauto.
Defined.

(** ** The requirement cards *)




(** ** The requirement detail *)

(** C4.  The detail of a requirement id is absent (nothing is drawn, and no
    part of a record is built) when no requirement of the catalogue or no
    control of the snapshot has that id.  When both have one, the detail is
    the record of the first such requirement, the first such control and all
    findings of that requirement id, in their order.  The function returns in
    every case. *)
Theorem requirement_detail_joins_or_is_absent (selected_req : string)
    (requirements : list Requirement.t) (control_status : Snapshot.t)
    (findings : list Finding.t) :
  ((forall r : Requirement.t,
       In r requirements -> Requirement.id r <> selected_req)
   \/ (forall c : ControlStatus.t,
          In c (Snapshot.controls control_status) ->
          ControlStatus.requirement_id c <> selected_req) ->
   requirement_detail selected_req requirements control_status findings
   = None)
  /\ ((exists r : Requirement.t,
          In r requirements /\ Requirement.id r = selected_req) ->
      (exists c : ControlStatus.t,
          In c (Snapshot.controls control_status)
          /\ ControlStatus.requirement_id c = selected_req) ->
      exists d : Detail,
        requirement_detail selected_req requirements control_status findings
        = Some d
        /\ first_such (fun r => Requirement.id r = selected_req)
             requirements (req_info d)
        /\ first_such (fun c => ControlStatus.requirement_id c = selected_req)
             (Snapshot.controls control_status) (control d)
        /\ selection (fun f => Finding.requirement_id f = selected_req)
             findings (req_findings d)).
Proof.
  unfold requirement_detail, find_control, find_req_info.
  pose proof (find_first_such
                (fun c => String.eqb (ControlStatus.requirement_id c)
                                     selected_req)
                (fun c => ControlStatus.requirement_id c = selected_req)
                (Snapshot.controls control_status)
                (fun c => String.eqb_eq _ _)) as Hc.
  pose proof (find_first_such
                (fun r => String.eqb (Requirement.id r) selected_req)
                (fun r => Requirement.id r = selected_req)
                requirements
                (fun r => String.eqb_eq _ _)) as Hr.
  destruct (find _ (Snapshot.controls control_status)) as [c|];
    destruct (find _ requirements) as [r|].
  - split.
    + intros [Hnone|Hnone]; exfalso.
      * destruct Hr as [before [after [E [Hid _]]]].
        apply (Hnone r); [| exact Hid].
        rewrite E. apply in_or_app. right. now left.
      * destruct Hc as [before [after [E [Hid _]]]].
        apply (Hnone c); [| exact Hid].
        rewrite E. apply in_or_app. right. now left.
    + intros _ _. eexists. split; [reflexivity |]. cbn.
      repeat split; try assumption.
      apply selection_filter. intros f. apply String.eqb_eq.
  - split; [reflexivity |].
    intros [r [Hin Hid]] _. exfalso. exact (Hr r Hin Hid).
  - split; [reflexivity |].
    intros _ [c [Hin Hid]]. exfalso. exact (Hc c Hin Hid).
  - split; [reflexivity |].
    intros [r [Hin Hid]] _. exfalso. exact (Hr r Hin Hid).
Qed.

Lemma requirement_detail_joins_or_is_absent_witness :
  requirement_detail "req_99" example_requirements example_snapshot
    example_findings = None
  /\ exists d : Detail,
       requirement_detail "req_1" example_requirements example_snapshot
         example_findings = Some d
       /\ first_such (fun r => Requirement.id r = "req_1")
            example_requirements (req_info d)
       /\ first_such (fun c => ControlStatus.requirement_id c = "req_1")
            (Snapshot.controls example_snapshot) (control d)
       /\ selection (fun f => Finding.requirement_id f = "req_1")
            example_findings (req_findings d).
Proof.
  destruct (requirement_detail_joins_or_is_absent "req_99"
              example_requirements example_snapshot example_findings)
    as [Habsent _].
  destruct (requirement_detail_joins_or_is_absent "req_1"
              example_requirements example_snapshot example_findings)
    as [_ Hjoin].
  split.
  - apply Habsent. left. intros r [<-|[<-|[]]]; discriminate.
  - apply Hjoin.
    + exists req_1. split; [now left | reflexivity].
    + exists control_1. split; [now left | reflexivity].
Defined.

(** ** The score cards *)

Lemma filter_length_selection {A : Type} (keep : A -> Prop) (test : A -> bool)
    (l l' : list A) :
  (forall a, test a = true <-> keep a) ->
  selection keep l l' ->
  List.length (filter test l) = List.length l'.
Proof.
  intros Ht Hsel. f_equal. symmetry.
  apply (selection_unique keep l); [exact Hsel |].
  now apply selection_filter.
Qed.

Lemma filter_length_pos {A : Type} (test : A -> bool) (l : list A) :
  0 < Z.of_nat (List.length (filter test l))
  <-> exists a, In a l /\ test a = true.
Proof.
  split.
  - destruct (filter test l) as [|a l'] eqn:E; simpl; [lia |].
    intros _. exists a. apply filter_In. rewrite E. now left.
  - intros [a Ha]. apply filter_In in Ha.
    destruct (filter test l); [destruct Ha | simpl; lia].
Qed.

Lemma round_half_even_nearest (q : Q) :
  (Qabs (q - inject_Z (Py.round_half_even q)) <= 1 # 2)%Q.
Proof.
  destruct q as [n d]. unfold Py.round_half_even. cbn [Qnum Qden].
  pose proof (Z.div_mod n (Zpos d) ltac:(lia)) as Hdm.
  pose proof (Z.mod_pos_bound n (Zpos d) ltac:(lia)) as Hb.
  set (fl := n / Zpos d) in *. set (r := n mod Zpos d) in *.
  assert (Hr : n - fl * Zpos d = r) by lia. rewrite Hr.
  apply Qabs_Qle_condition.
  destruct (2 * r <? Zpos d) eqn:E1;
    [| destruct (Zpos d <? 2 * r) eqn:E2; [| destruct (Z.even fl)]];
    try apply Z.ltb_lt in E1; try apply Z.ltb_ge in E1;
    try apply Z.ltb_lt in E2; try apply Z.ltb_ge in E2;
    unfold Qle, Qminus, Qplus, Qopp, inject_Z; cbn [Qnum Qden];
    split; nia.
Qed.

(** C10, as the code has it.  The Open Findings card is computed from the
    findings list and from nothing of the snapshot: its value is the number
    of findings whose status is the string open, and it carries a delta
    exactly when some open finding has the severity critical, in which case
    the delta names the number of such findings.  The passing and failing
    cards show the two integers of the summary of the snapshot as they are.
    The score card shows the score of the summary rounded to no decimals
    (format .0f) and followed by a percent sign, which for a score that is
    not negative is an integer at most one half away from it. *)
Theorem score_cards_sources (control_status : Snapshot.t)
    (findings : list Finding.t) :
  let summary := Snapshot.summary control_status in
  exists m_score m_passing m_failing m_open : Metric,
    score_cards control_status findings
    = [m_score; m_passing; m_failing; m_open]
    /\ (forall l : list Finding.t,
           selection (fun f => Finding.status f = "open") findings l ->
           value m_open = VInt (Z.of_nat (List.length l)))
    /\ ((exists f : Finding.t,
            In f findings /\ Finding.status f = "open"
            /\ Finding.severity f = "critical")
        <-> delta m_open <> None)
    /\ (forall l : list Finding.t,
           selection (fun f => Finding.status f = "open"
                               /\ Finding.severity f = "critical")
                     findings l ->
           l <> [] ->
           delta m_open
           = Some (Py.str_of_int (Z.of_nat (List.length l)) ++ " critical"))
    /\ value m_passing = VInt (Summary.passing summary)
    /\ value m_failing = VInt (Summary.failing summary)
    /\ value m_score
       = VStr (Py.format_0f (Summary.compliance_score summary) ++ "%")
    /\ ((0 <= Summary.compliance_score summary)%Q ->
        exists n : Z,
          value m_score = VStr (Py.str_of_int n ++ "%")
          /\ (Qabs (Summary.compliance_score summary - inject_Z n)
              <= 1 # 2)%Q).
Proof.
  intros summary.
  assert (Hcrit : forall f : Finding.t,
             String.eqb (Finding.status f) "open"
             && String.eqb (Finding.severity f) "critical" = true
             <-> Finding.status f = "open"
                 /\ Finding.severity f = "critical").
  { intros f. rewrite andb_true_iff, !String.eqb_eq. tauto. }
  do 4 eexists. split; [reflexivity |].
  cbn [value delta open_findings_metric passing_metric failing_metric
       score_metric].
  repeat split.
  - intros l Hl. unfold open_findings. do 2 f_equal.
    apply (filter_length_selection _ _ _ _ (fun f => String.eqb_eq _ _) Hl).
  - intros [f [Hin [Hst Hsev]]].
    assert (Hpos : 0 < critical_findings findings).
    { apply filter_length_pos. exists f. split; [exact Hin |].
      apply Hcrit. tauto. }
    apply Z.ltb_lt in Hpos. rewrite Hpos. discriminate.
  - intros Hdelta.
    destruct (0 <? critical_findings findings) eqn:E; [| congruence].
    apply Z.ltb_lt, filter_length_pos in E. destruct E as [f [Hin Ht]].
    exists f. apply Hcrit in Ht. tauto.
  - intros l Hl Hne.
    assert (E : critical_findings findings = Z.of_nat (List.length l)).
    { unfold critical_findings. f_equal.
      apply (filter_length_selection _ _ _ _ Hcrit Hl). }
    rewrite E. destruct l; [congruence |]. reflexivity.
  - intros Hnonneg.
    exists (Py.round_half_even (Summary.compliance_score summary)).
    split; [| apply round_half_even_nearest].
    subst summary.
    set (q := Summary.compliance_score (Snapshot.summary control_status)) in *.
    assert (Hsign : (Qnum q <? 0) = false).
    { apply Z.ltb_ge. unfold Qle in Hnonneg. simpl in Hnonneg. lia. }
    unfold Py.format_0f. rewrite Hsign. reflexivity.
Qed.

Lemma score_cards_sources_witness :
  exists m_score m_passing m_failing m_open : Metric,
    score_cards example_snapshot example_findings
    = [m_score; m_passing; m_failing; m_open]
    /\ value m_open = VInt 2
    /\ delta m_open = Some "1 critical"
    /\ exists n : Z,
         value m_score = VStr (Py.str_of_int n ++ "%")
         /\ (Qabs ((267 # 4) - inject_Z n) <= 1 # 2)%Q.
Proof.
  destruct (score_cards_sources example_snapshot example_findings)
    as [m_score [m_passing [m_failing [m_open
         [Hcards [Hopen [_ [Hdelta [_ [_ [_ Hscore]]]]]]]]]]].
  exists m_score, m_passing, m_failing, m_open.
  split; [exact Hcards |]. split; [| split].
  - apply (Hopen [finding_1; finding_2]).
    apply selection_keep; [reflexivity |].
    apply selection_keep; [reflexivity |].
    apply selection_drop; [discriminate | constructor].
  - apply (Hdelta [finding_1]); [| discriminate].
    apply selection_keep; [split; reflexivity |].
    apply selection_drop; [intros [_ H]; discriminate |].
    apply selection_drop; [intros [H _]; discriminate | constructor].
  - apply Hscore. unfold Qle. simpl. lia.
Defined.

(** C10, as it is stated, fails for the score card: for a summary score of
    66.75 the card shows 67%, a number that is not the score of the
    snapshot. *)
Lemma score_card_is_rounded :
  Summary.compliance_score (Snapshot.summary example_snapshot) == 267 # 4
  /\ value (score_metric example_snapshot) = VStr "67%"
  /\ ~ Summary.compliance_score (Snapshot.summary example_snapshot)
       == inject_Z 67.
Proof.
  split; [reflexivity |]. split; [reflexivity |].
  unfold Qeq. simpl. lia.
Qed.

(** ** The event annotations *)





Lemma first_such_In {A : Type} (P : A -> Prop) (l : list A) (a : A) :
  first_such P l a -> In a l /\ P a.
Proof.
  intros [before [after [-> [Pa _]]]]. split; [| exact Pa].
  apply in_or_app. right. now left.
Qed.


Section TrendSpec.

Variable to_datetime : string -> option Timestamp.

(** What an event adds does not depend on the annotations before it. *)
Lemma add_event_annotation_appends (df_trend : list TrendPoint.t)
    (annotations : list Annotation) (event : Event.t) :
  add_event_annotation to_datetime df_trend annotations event
  = option_map (app annotations)
      (add_event_annotation to_datetime df_trend [] event).
Proof.
  unfold add_event_annotation.
  destruct (to_datetime (Event.date event)) as [d|]; [| reflexivity].
  destruct (score_at_date df_trend d); simpl; [| reflexivity].
  now rewrite app_nil_r.
Qed.

(** The loop returns when the date of every event can be read, and adds
    at most one annotation per event. *)
Lemma add_event_annotations_returns (df_trend : list TrendPoint.t)
    (events : list Event.t) :
  Forall (fun e => to_datetime (Event.date e) <> None) events ->
  forall annotations : list Annotation,
  exists result : list Annotation,
    add_event_annotations to_datetime df_trend annotations events
    = Some result
    /\ (List.length result
        <= List.length annotations + List.length events)%nat.
Proof.
  induction 1 as [|e events He _ IH]; intros annotations; simpl.
  - exists annotations. split; [reflexivity | lia].
  - unfold add_event_annotation at 1.
    destruct (to_datetime (Event.date e)) as [d|]; [| congruence].
    destruct (score_at_date df_trend d) as [|score more].
    + destruct (IH annotations) as [result [-> Hlen]].
      exists result. split; [reflexivity | lia].
    + destruct (IH (annotations
                    ++ [event_annotation d score e])%list)
        as [result [-> Hlen]].
      exists result. split; [reflexivity |].
      rewrite length_app in Hlen. simpl in Hlen. lia.
Qed.


End TrendSpec.


(** ** The memoised loaders *)

Lemma loader_eqb_eq (a b : Loader) : loader_eqb a b = true <-> a = b.
Proof. destruct a, b; simpl; split; congruence. Qed.

Lemma cache_data_hit (f : Loader) (body : M Doc) (w : World) (v : Doc) :
  cache w f = Some v -> cache_data f body w = (Ok v, w).
Proof. intros H. unfold cache_data. now rewrite H. Qed.

Lemma cache_data_stores (f : Loader) (body : M Doc) (w w' : World)
    (v : Doc) :
  cache_data f body w = (Ok v, w') -> cache w' f = Some v.
Proof.
  unfold cache_data. destruct (cache w f) as [v0|] eqn:E.
  - intros H. injection H as -> ->. exact E.
  - destruct (body w) as [[v1|e] w1]; intros H; [| discriminate].
    injection H as -> <-. cbn [cache].
    now rewrite (proj2 (loader_eqb_eq f f) eq_refl).
Qed.

Lemma cache_data_keeps (f g : Loader) (body : M Doc) (w : World) (v : Doc) :
  (forall w0, cache (snd (body w0)) = cache w0) ->
  cache w g = Some v ->
  cache (snd (cache_data f body w)) g = Some v.
Proof.
  intros Hbody Hg. unfold cache_data.
  destruct (cache w f) as [v0|] eqn:E; [exact Hg |].
  pose proof (Hbody w) as Hw. destruct (body w) as [[v1|e] w1];
    cbn [snd cache] in *.
  - destruct (loader_eqb g f) eqn:Egf.
    + apply loader_eqb_eq in Egf. congruence.
    + now rewrite Hw.
  - now rewrite Hw.
Qed.

Lemma open_file_cache (path : string) (w : World) :
  cache (snd (open_file path w)) = cache w.
Proof. unfold open_file. now destruct (files w path). Qed.

Lemma bind_cache {A B : Type} (m : M A) (k : A -> M B) :
  (forall w, cache (snd (m w)) = cache w) ->
  (forall a w, cache (snd (k a w)) = cache w) ->
  forall w, cache (snd (bind m k w)) = cache w.
Proof.
  intros Hm Hk w. unfold bind. pose proof (Hm w) as Hw.
  destruct (m w) as [[a|e] w1]; cbn [snd] in *.
  - now rewrite Hk.
  - exact Hw.
Qed.

Lemma parse_cache (parser : string -> option Doc) (content : string)
    (w : World) :
  cache (snd (parse parser content w)) = cache w.
Proof. unfold parse. now destruct (parser content). Qed.

Lemma getitem_cache (doc : Doc) (key : string) (w : World) :
  cache (snd (getitem doc key w)) = cache w.
Proof.
  unfold getitem. destruct doc; try reflexivity.
  now destruct (assoc key entries).
Qed.

Section LoaderSpec.

Variable DATA_DIR : string.
Variable yaml_safe_load : string -> option Doc.
Variable json_load : string -> option Doc.

Local Abbreviation load := (load DATA_DIR yaml_safe_load json_load).
Local Abbreviation steps := (steps DATA_DIR yaml_safe_load json_load).

Lemma load_hit (f : Loader) (w : World) (v : Doc) :
  cache w f = Some v -> load f w = (Ok v, w).
Proof. intros H. destruct f; now apply cache_data_hit. Qed.

Lemma load_stores (f : Loader) (w w' : World) (v : Doc) :
  load f w = (Ok v, w') -> cache w' f = Some v.
Proof. destruct f; apply cache_data_stores. Qed.

Lemma load_keeps (f g : Loader) (w : World) (v : Doc) :
  cache w g = Some v -> cache (snd (load f w)) g = Some v.
Proof.
  intros H. destruct f; apply cache_data_keeps; trivial; intros w0;
    repeat (apply bind_cache; intros);
    auto using open_file_cache, parse_cache, getitem_cache.
Qed.

Lemma steps_keep (g : Loader) (v : Doc) (w w' : World) :
  steps w w' -> cache w g = Some v -> cache w' g = Some v.
Proof.
  induction 1 as [w|w1 w2 w3 Hstep _ IH]; intros Hg; [exact Hg |].
  apply IH. destruct Hstep as [w files'|w f].
  - exact Hg.
  - now apply load_keeps.
Qed.

(** C7.  Once a load operation has returned a value, every later call of
    the same operation in the process returns that value and leaves the
    process as it is, so that no file is opened: this holds for the call
    that follows at once and after any sequence of calls of the four
    operations and of changes to the files. *)
Theorem load_is_memoised (f : Loader) (w w1 : World) (v : Doc) :
  load f w = (Ok v, w1) ->
  load f w1 = (Ok v, w1)
  /\ forall w2 : World,
       steps w1 w2 ->
       load f w2 = (Ok v, w2)
       /\ opened (snd (load f w2)) = opened w2.
Proof.
  intros Hfirst. apply load_stores in Hfirst. split.
  - now apply load_hit.
  - intros w2 Hsteps.
    assert (Hhit : load f w2 = (Ok v, w2)).
    { apply load_hit. exact (steps_keep f v w1 w2 Hsteps Hfirst). }
    split; [exact Hhit | now rewrite Hhit].
Qed.

End LoaderSpec.

Lemma load_is_memoised_witness :
  let load := load "data" example_yaml example_json in
  let w1 := snd (load LoadRequirements example_world) in
  opened w1 = ["data/pci_requirements.yaml"]
  /\ load LoadRequirements w1 = (Ok (DList []), w1)
  /\ load LoadRequirements (without_files w1)
     = (Ok (DList []), without_files w1).
Proof.
  intros load0 w1.
  destruct (load_is_memoised "data" example_yaml example_json
              LoadRequirements example_world w1 (DList []) eq_refl)
    as [Hsecond Hlater].
  split; [reflexivity |]. split; [exact Hsecond |].
  apply Hlater.
  apply (steps_step _ _ _ w1 (without_files w1) (without_files w1)).
  - apply (step_files _ _ _ w1 (fun _ => None)).
  - apply steps_refl.
Defined.

(** ** The CSV export *)

Lemma append_assoc (a b c : string) : (a ++ b) ++ c = a ++ (b ++ c).
Proof. induction a as [|x a IH]; simpl; [reflexivity | now rewrite IH]. Qed.

Lemma append_nil_r (s : string) : s ++ "" = s.
Proof. induction s as [|x s IH]; simpl; [reflexivity | now rewrite IH]. Qed.

Lemma special_false (c : ascii) :
  special c = false ->
  Ascii.eqb c comma = false /\ Ascii.eqb c quote = false
  /\ Ascii.eqb c LF = false.
Proof.
  unfold special. intros H.
  repeat (apply orb_false_iff in H; destruct H as [H ?]). tauto.
Qed.

(** *** The reader undoes the writer *)

Lemma read_plain (f : string) :
  forall (recs : list (list string)) (flds : list string) (fld : string)
         (st : ReaderState) (rest : string),
    has_special f = false ->
    st = StartField \/ st = InField ->
    read_chars (mkReader recs flds fld st) (f ++ rest)
    = read_chars (mkReader recs flds (fld ++ f) (after_plain st f)) rest.
Proof.
  induction f as [|c f IH]; intros recs flds fld st rest Hf Hst.
  - simpl. now rewrite append_nil_r.
  - cbn [has_special] in Hf. apply orb_false_iff in Hf.
    destruct Hf as [Hc Hf].
    destruct (special_false c Hc) as [Hcomma [Hquote HLF]].
    cbn [append read_chars after_plain].
    assert (Hstep : read_char (mkReader recs flds fld st) c
                    = mkReader recs flds (fld ++ String c "") InField).
    { unfold read_char. cbn [state].
      destruct Hst as [-> | ->]; rewrite ?Hquote, Hcomma, HLF; reflexivity. }
    rewrite Hstep, (IH recs flds _ InField rest Hf (or_intror eq_refl)).
    rewrite append_assoc. cbn [append]. now destruct f.
Qed.

Lemma read_quoted_body (f : string) :
  forall (recs : list (list string)) (flds : list string) (fld : string)
         (rest : string),
    read_chars (mkReader recs flds fld InQuotedField)
               (double_quotes f ++ rest)
    = read_chars (mkReader recs flds (fld ++ f) InQuotedField) rest.
Proof.
  induction f as [|c f IH]; intros recs flds fld rest.
  - simpl. now rewrite append_nil_r.
  - cbn [double_quotes]. destruct (Ascii.eqb c quote) eqn:E.
    + apply Ascii.eqb_eq in E. subst c.
      cbn [append read_chars].
      change (read_char (mkReader recs flds fld InQuotedField) quote)
        with (mkReader recs flds fld QuoteInQuotedField).
      change (read_char (mkReader recs flds fld QuoteInQuotedField) quote)
        with (mkReader recs flds (fld ++ String quote "") InQuotedField).
      rewrite IH, append_assoc. reflexivity.
    + cbn [append read_chars].
      assert (Hstep : read_char (mkReader recs flds fld InQuotedField) c
                      = mkReader recs flds (fld ++ String c "")
                                 InQuotedField).
      { unfold read_char. cbn [state]. now rewrite E. }
      rewrite Hstep, IH, append_assoc. reflexivity.
Qed.

Lemma read_field (f : string) (recs : list (list string))
    (flds : list string) (rest : string) :
  exists st : ReaderState,
    field_end st
    /\ read_chars (mkReader recs flds "" StartField) (csv_field f ++ rest)
       = read_chars (mkReader recs flds f st) rest.
Proof.
  unfold csv_field, field_end. destruct (has_special f) eqn:E.
  - exists QuoteInQuotedField. split; [tauto |].
    cbn [append read_chars].
    change (read_char (mkReader recs flds "" StartField) quote)
      with (mkReader recs flds "" InQuotedField).
    rewrite append_assoc, read_quoted_body. reflexivity.
  - exists (after_plain StartField f). split.
    + destruct f; simpl; tauto.
    + apply (read_plain f recs flds "" StartField rest E). now left.
Qed.

Lemma read_comma (recs : list (list string)) (flds : list string)
    (fld : string) (st : ReaderState) :
  field_end st ->
  read_char (mkReader recs flds fld st) comma
  = mkReader recs (flds ++ [fld]) "" StartField.
Proof. intros [-> | [-> | ->]]; reflexivity. Qed.

Lemma read_LF (recs : list (list string)) (flds : list string)
    (fld : string) (st : ReaderState) :
  field_end st ->
  read_char (mkReader recs flds fld st) LF
  = mkReader (recs ++ [flds ++ [fld]])%list [] "" StartField.
Proof. intros [-> | [-> | ->]]; reflexivity. Qed.

Lemma read_join_fields (cells : list string) :
  cells <> [] ->
  forall (recs : list (list string)) (flds : list string) (rest : string),
    read_chars (mkReader recs flds "" StartField)
               (join_fields cells ++ String LF rest)
    = read_chars (mkReader (recs ++ [flds ++ cells])%list [] "" StartField)
                 rest.
Proof.
  induction cells as [|c cells IH]; intros Hne recs flds rest;
    [congruence |].
  destruct cells as [|c2 more].
  - cbn [join_fields].
    destruct (read_field c recs flds (String LF rest)) as [st [Hst ->]].
    cbn [read_chars]. now rewrite (read_LF _ _ _ _ Hst).
  - change (join_fields (c :: c2 :: more))
      with (csv_field c ++ String comma (join_fields (c2 :: more))).
    rewrite append_assoc. cbn [append].
    destruct (read_field c recs flds
                (String comma (join_fields (c2 :: more) ++ String LF rest)))
      as [st [Hst ->]].
    cbn [read_chars]. rewrite (read_comma _ _ _ _ Hst).
    rewrite IH by discriminate. now rewrite <- app_assoc.
Qed.

Lemma csv_field_empty (c : string) : csv_field c = "" -> c = "".
Proof.
  unfold csv_field. destruct (has_special c); [discriminate | trivial].
Qed.

Lemma append_empty (a b : string) : a ++ b = "" -> a = "" /\ b = "".
Proof. destruct a; simpl; [tauto | discriminate]. Qed.

Lemma join_fields_empty (cells : list string) :
  cells <> [] -> join_fields cells = "" -> cells = [""].
Proof.
  destruct cells as [|c [|c2 more]]; intros Hne H; [congruence | |].
  - simpl in H. apply csv_field_empty in H. now subst.
  - change (join_fields (c :: c2 :: more))
      with (csv_field c ++ String comma (join_fields (c2 :: more))) in H.
    apply append_empty in H. destruct H as [_ H]. discriminate.
Qed.

Lemma read_record (cells : list string) (recs : list (list string))
    (rest : string) :
  cells <> [] ->
  read_chars (mkReader recs [] "" StartField)
             (csv_record cells ++ String LF rest)
  = read_chars (mkReader (recs ++ [cells])%list [] "" StartField) rest.
Proof.
  intros Hne. pose proof (read_join_fields cells Hne recs [] rest) as Hjoin.
  pose proof (join_fields_empty cells Hne) as Hempty.
  unfold csv_record. destruct cells as [|c cells]; [congruence |].
  destruct (join_fields (c :: cells)) as [|x text].
  - rewrite (Hempty eq_refl). reflexivity.
  - exact Hjoin.
Qed.

Lemma read_records (records : list (list string)) :
  Forall (fun cells => cells <> []) records ->
  forall recs : list (list string),
    read_chars (mkReader recs [] "" StartField) (write_records records)
    = mkReader (recs ++ records)%list [] "" StartField.
Proof.
  induction 1 as [|cells records Hne _ IH]; intros recs; simpl.
  - now rewrite app_nil_r.
  - rewrite (read_record cells recs _ Hne), IH, <- app_assoc. reflexivity.
Qed.

Lemma read_csv_write_records (records : list (list string)) :
  Forall (fun cells => cells <> []) records ->
  read_csv (write_records records) = records.
Proof.
  intros H. unfold read_csv, new_reader. now rewrite (read_records records H).
Qed.

(** *** The lines of the export *)

Lemma has_LF_append (a b : string) :
  has_LF (a ++ b) = has_LF a || has_LF b.
Proof.
  induction a as [|c a IH]; simpl; [reflexivity |].
  now rewrite IH, orb_assoc.
Qed.

Lemma has_LF_double_quotes (s : string) :
  has_LF (double_quotes s) = has_LF s.
Proof.
  induction s as [|c s IH]; simpl; [reflexivity |].
  destruct (Ascii.eqb c quote) eqn:E.
  - apply Ascii.eqb_eq in E. subst c. cbn [has_LF]. rewrite IH. reflexivity.
  - cbn [has_LF]. now rewrite IH.
Qed.

Lemma has_LF_csv_field (s : string) : has_LF (csv_field s) = has_LF s.
Proof.
  unfold csv_field. destruct (has_special s); [| reflexivity].
  cbn [has_LF]. rewrite has_LF_append, has_LF_double_quotes.
  change (Ascii.eqb quote LF) with false. cbn [has_LF orb].
  change (Ascii.eqb quote LF) with false. now rewrite !orb_false_r.
Qed.

Lemma has_LF_join_fields (cells : list string) :
  Forall (fun cell => has_LF cell = false) cells ->
  has_LF (join_fields cells) = false.
Proof.
  induction 1 as [|c cells Hc Hcells IH]; [reflexivity |].
  destruct cells as [|c2 more].
  - cbn [join_fields]. now rewrite has_LF_csv_field.
  - change (join_fields (c :: c2 :: more))
      with (csv_field c ++ String comma (join_fields (c2 :: more))).
    rewrite has_LF_append, has_LF_csv_field, Hc. cbn [has_LF orb].
    rewrite IH. reflexivity.
Qed.

Lemma has_LF_csv_record (cells : list string) :
  Forall (fun cell => has_LF cell = false) cells ->
  has_LF (csv_record cells) = false.
Proof.
  intros H. pose proof (has_LF_join_fields cells H) as Hjoin.
  unfold csv_record. destruct cells; [reflexivity |].
  destruct (join_fields (s :: cells)); [reflexivity | exact Hjoin].
Qed.

Lemma split_lines_from_line (line : string) :
  forall acc rest : string,
    has_LF line = false ->
    split_lines_from acc (line ++ String LF rest)
    = (acc ++ line) :: split_lines_from "" rest.
Proof.
  induction line as [|c line IH]; intros acc rest H.
  - cbn [append split_lines_from].
    change (Ascii.eqb LF LF) with true. cbn iota. now rewrite append_nil_r.
  - cbn [has_LF] in H. apply orb_false_iff in H. destruct H as [Hc H].
    cbn [append split_lines_from]. rewrite Hc, (IH _ rest H), append_assoc.
    reflexivity.
Qed.

Lemma split_lines_write_records (records : list (list string)) :
  Forall (Forall (fun cell => has_LF cell = false)) records ->
  split_lines (write_records records) = map csv_record records.
Proof.
  unfold split_lines. induction 1 as [|cells records Hcells _ IH]; simpl.
  - reflexivity.
  - rewrite (split_lines_from_line _ "" _ (has_LF_csv_record cells Hcells)).
    now rewrite IH.
Qed.





(** * Further properties of the script *)

(** ** Case of letters *)



Lemma upper_char_idempotent (c : ascii) :
  Py.upper_char (Py.upper_char c) = Py.upper_char c.
Proof. destruct c as [[] [] [] [] [] [] [] []]; reflexivity. Qed.





Lemma dict_get_range (d : list (string * string)) (key default : string) :
  In (Py.dict_get d key default) (default :: map snd d).
Proof.
  induction d as [|[k v] d IH]; simpl; [now left |].
  destruct (String.eqb k key); [right; now left |].
  destruct IH as [E|Hin]; [now left | right; now right].
Qed.

(** X2.  Whatever the string, [severity_color] gives one of the four
    severity colours or the neutral colour, and [status_color] one of the
    three status colours. *)
Theorem colors_stay_in_palette (s : string) :
  In (severity_color s) severity_palette
  /\ In (status_color s) status_palette.
Proof.
  split.
  - pose proof (dict_get_range severity_colors (Py.lower s) "#6c757d") as H.
    unfold severity_color. cbn [map snd severity_colors] in H.
    unfold severity_palette. simpl in *. tauto.
  - pose proof (dict_get_range status_colors (Py.lower s) "#6c757d") as H.
    unfold status_color. cbn [map snd status_colors] in H.
    unfold status_palette. simpl in *. tauto.
Qed.

(** ** The heading of a card *)





(** ** The numbers of the score cards *)

Lemma round_half_even_between (q : Q) (a b : Z) :
  (inject_Z a <= q)%Q -> (q <= inject_Z b)%Q ->
  a <= Py.round_half_even q <= b.
Proof.
  destruct q as [n d]. unfold Qle, inject_Z, Py.round_half_even.
  cbn [Qnum Qden]. intros Ha Hb.
  pose proof (Z.div_mod n (Zpos d) ltac:(lia)) as Hdm.
  pose proof (Z.mod_pos_bound n (Zpos d) ltac:(lia)) as Hr.
  set (fl := n / Zpos d) in *. set (r := n mod Zpos d) in *.
  assert (Hrem : n - fl * Zpos d = r) by lia. rewrite Hrem.
  destruct (2 * r <? Zpos d) eqn:E1;
    [| destruct (Zpos d <? 2 * r) eqn:E2; [| destruct (Z.even fl)]];
    try apply Z.ltb_lt in E1; try apply Z.ltb_ge in E1;
    try apply Z.ltb_lt in E2; try apply Z.ltb_ge in E2;
    split; nia.
Qed.

(** X4.  For a summary score between 0 and 100 the score card shows a whole
    number between 0 and 100 followed by a percent sign, and a score that is
    a whole number is shown as that number. *)
Theorem score_card_in_range (control_status : Snapshot.t) :
  let score := Summary.compliance_score (Snapshot.summary control_status) in
  (0 <= score)%Q -> (score <= 100)%Q ->
  exists n : Z,
    0 <= n <= 100
    /\ value (score_metric control_status) = VStr (Py.str_of_int n ++ "%")
    /\ forall k : Z, score == inject_Z k -> n = k.
Proof.
  intros score Hlo Hhi. exists (Py.round_half_even score).
  split; [apply (round_half_even_between score 0 100); assumption |].
  split.
  - unfold score_metric, Py.format_0f. fold score. cbn [value].
    assert (Hsign : (Qnum score <? 0) = false).
    { apply Z.ltb_ge. unfold Qle in Hlo. simpl in Hlo. lia. }
    now rewrite Hsign.
  - intros k Hk.
    assert (H : k <= Py.round_half_even score <= k).
    { apply round_half_even_between; rewrite Hk; apply Qle_refl. }
    lia.
Qed.

Lemma score_card_in_range_witness :
  exists n : Z,
    0 <= n <= 100
    /\ value (score_metric example_snapshot) = VStr (Py.str_of_int n ++ "%").
Proof.
  destruct (score_card_in_range example_snapshot) as [n [Hn [Hv _]]].
  - unfold Qle. simpl. lia.
  - unfold Qle. simpl. lia.
  - exists n. split; [exact Hn | exact Hv].
Defined.

Lemma filter_length_le {A : Type} (test : A -> bool) (l : list A) :
  (List.length (filter test l) <= List.length l)%nat.
Proof.
  induction l as [|a l IH]; simpl; [lia |].
  destruct (test a); simpl; lia.
Qed.

Lemma filter_length_andb {A : Type} (p q : A -> bool) (l : list A) :
  (List.length (filter (fun a => p a && q a) l)
   <= List.length (filter p l))%nat.
Proof.
  induction l as [|a l IH]; simpl; [lia |].
  destruct (p a), (q a); simpl; lia.
Qed.

(** X5.  On the Open Findings card the number of critical findings named
    by the delta is never above the value of the card, and the value is
    never above the number of findings loaded. *)
Theorem open_findings_bounds (findings : list Finding.t) :
  0 <= critical_findings findings
  /\ critical_findings findings <= open_findings findings
  /\ open_findings findings <= Z.of_nat (List.length findings).
Proof.
  unfold critical_findings, open_findings. split; [lia |]. split.
  - apply Nat2Z.inj_le.
    apply (filter_length_andb
             (fun f => String.eqb (Finding.status f) "open")
             (fun f => String.eqb (Finding.severity f) "critical")).
  - apply Nat2Z.inj_le, filter_length_le.
Qed.

(** ** More on the findings filter *)

Lemma filter_ext_in_list {A : Type} (p q : A -> bool) (l : list A) :
  (forall a, In a l -> p a = q a) -> filter p l = filter q l.
Proof.
  induction l as [|a l IH]; intros H; simpl; [reflexivity |].
  rewrite (H a (or_introl eq_refl)), IH; [reflexivity |].
  intros b Hb. apply H. now right.
Qed.

Lemma filter_twice {A : Type} (p q : A -> bool) (l : list A) :
  filter q (filter p l) = filter (fun a => p a && q a) l.
Proof.
  induction l as [|a l IH]; simpl; [reflexivity |].
  destruct (p a); simpl; [destruct (q a) |]; now rewrite IH.
Qed.

Lemma str_in_iff (x : string) (l l' : list string) :
  (In x l <-> In x l') -> Py.str_in x l = Py.str_in x l'.
Proof.
  intros H. destruct (Py.str_in x l) eqn:E, (Py.str_in x l') eqn:E';
    trivial.
  - apply str_in_In, H, str_in_In in E. congruence.
  - apply str_in_In, H, str_in_In in E'. congruence.
Qed.

Lemma str_in_incl (x : string) (l l' : list string) :
  incl l l' -> Py.str_in x l = true -> Py.str_in x l' = true.
Proof. intros H E. apply str_in_In. apply H. now apply str_in_In. Qed.

(** X6.  Filtering a filtered list again with the same selections changes
    nothing, and two filters can be applied in either order. *)
Theorem filtered_idempotent_and_commutes (findings : list Finding.t)
    (S T R S' T' R' : list string) :
  filtered (filtered findings S T R) S T R = filtered findings S T R
  /\ filtered (filtered findings S T R) S' T' R'
     = filtered (filtered findings S' T' R') S T R.
Proof.
  unfold filtered. rewrite !filter_twice. split.
  - apply filter_ext_in_list. intros f _. apply andb_diag.
  - apply filter_ext_in_list. intros f _. apply andb_comm.
Qed.

(** X7.  Narrowing the three selections gives what the narrower filter
    keeps of the result of the wider one; in particular every finding shown
    under the narrower selections is shown under the wider ones. *)
Theorem filtered_narrowing (findings : list Finding.t)
    (S T R S' T' R' : list string) :
  incl S S' -> incl T T' -> incl R R' ->
  filtered findings S T R = filtered (filtered findings S' T' R') S T R
  /\ incl (filtered findings S T R) (filtered findings S' T' R').
Proof.
  intros HS HT HR.
  assert (E : filtered findings S T R
              = filtered (filtered findings S' T' R') S T R).
  { unfold filtered. rewrite filter_twice. apply filter_ext_in_list.
    intros f _.
    pose proof (str_in_incl (Finding.severity f) S S' HS) as H1.
    pose proof (str_in_incl (Finding.status f) T T' HT) as H2.
    pose proof (str_in_incl (Finding.requirement_id f) R R' HR) as H3.
    destruct (Py.str_in (Finding.severity f) S),
      (Py.str_in (Finding.status f) T),
      (Py.str_in (Finding.requirement_id f) R);
      try rewrite (H1 eq_refl); try rewrite (H2 eq_refl);
      try rewrite (H3 eq_refl); cbn [andb]; rewrite ?andb_false_r;
      reflexivity. }
  split; [exact E |].
  rewrite E. intros f Hf. apply filtered_In in Hf. tauto.
Qed.

Lemma filtered_narrowing_witness :
  incl (filtered example_findings ["critical"] status_default ["req_1"])
       (filtered example_findings severity_options status_options
                 ["req_1"; "req_8"]).
Proof.
  apply (filtered_narrowing example_findings ["critical"] status_default
           ["req_1"] severity_options status_options ["req_1"; "req_8"]).
  - intros x [<-|[]]. simpl. tauto.
  - intros x [<-|[]]. simpl. tauto.
  - intros x [<-|[]]. simpl. tauto.
Defined.

(** X8.  The result of the filter depends on which values are selected
    only: the order of the selected values and their repetition do not
    matter. *)
Theorem filtered_by_membership (findings : list Finding.t)
    (S T R S' T' R' : list string) :
  (forall x : string, In x S <-> In x S') ->
  (forall x : string, In x T <-> In x T') ->
  (forall x : string, In x R <-> In x R') ->
  filtered findings S T R = filtered findings S' T' R'.
Proof.
  intros HS HT HR. unfold filtered. apply filter_ext_in_list. intros f _.
  now rewrite (str_in_iff _ S S' (HS _)), (str_in_iff _ T T' (HT _)),
    (str_in_iff _ R R' (HR _)).
Qed.

Lemma filtered_by_membership_witness :
  filtered example_findings ["high"; "critical"] ["open"; "open"] ["req_8"; "req_1"]
  = filtered example_findings ["critical"; "high"] ["open"] ["req_1"; "req_8"].
Proof.
  apply (filtered_by_membership example_findings
           ["high"; "critical"] ["open"; "open"] ["req_8"; "req_1"]
           ["critical"; "high"] ["open"] ["req_1"; "req_8"]);
    intros x; simpl; tauto.
Defined.

Lemma filter_length_all {A : Type} (test : A -> bool) (l : list A) :
  List.length (filter test l) = List.length l -> filter test l = l.
Proof.
  induction l as [|a l IH]; simpl; [reflexivity |].
  destruct (test a); simpl; intros H.
  - f_equal. apply IH. lia.
  - pose proof (filter_length_le test l). lia.
Qed.

(** X9.  The caption of the Findings page never counts more findings shown
    than findings loaded, and the two numbers agree exactly when every
    finding passes the filter. *)
Theorem shown_at_most_total (findings : list Finding.t)
    (S T R : list string) :
  let page := findings_page findings S T R in
  (shown page <= total page)%nat
  /\ (shown page = total page
      <-> forall f : Finding.t, In f findings -> selected S T R f).
Proof.
  cbn [findings_page shown total]. split.
  - apply filter_length_le.
  - split.
    + intros Hlen f Hf. apply filter_length_all in Hlen.
      fold (filtered findings S T R) in Hlen.
      rewrite <- Hlen in Hf. apply filtered_In in Hf. tauto.
    + intros Hall. f_equal. unfold filtered.
      rewrite (filter_ext_in_list _ (fun _ => true)).
      * clear Hall. induction findings as [|f fs IH]; simpl;
          [reflexivity | now rewrite IH].
      * intros f Hf. apply selected_test. now apply Hall.
Qed.

(** X10.  With the default state of the widgets (all severities, status
    open, all requirements of the catalogue) the Findings page never shows
    more findings than the Open Findings card counts; it shows as many when
    every open finding has a severity of the enumeration and a requirement
    of the catalogue. *)
Theorem default_filter_and_open_card (findings : list Finding.t)
    (requirements : list Requirement.t) :
  let page := findings_page findings severity_options status_default
                (req_options requirements) in
  Z.of_nat (shown page) <= open_findings findings
  /\ ((forall f : Finding.t,
          In f findings -> Finding.status f = "open" ->
          In (Finding.severity f) severity_options
          /\ In (Finding.requirement_id f) (req_options requirements)) ->
      Z.of_nat (shown page) = open_findings findings).
Proof.
  cbn [findings_page shown]. unfold open_findings, filtered.
  set (open := fun f : Finding.t => String.eqb (Finding.status f) "open").
  assert (E : forall f : Finding.t,
             Py.str_in (Finding.status f) status_default = open f).
  { intros f. unfold Py.str_in, status_default, open. cbn [existsb].
    apply orb_false_r. }
  split.
  - apply Nat2Z.inj_le.
    rewrite (filter_ext_in_list _
               (fun f => open f
                         && (Py.str_in (Finding.severity f) severity_options
                             && Py.str_in (Finding.requirement_id f)
                                  (req_options requirements)))).
    + apply (filter_length_andb open).
    + intros f _. rewrite E.
      destruct (open f), (Py.str_in (Finding.severity f) severity_options);
        reflexivity.
  - intros Hall. do 2 f_equal. apply filter_ext_in_list. intros f Hf.
    rewrite E. destruct (open f) eqn:Ho; [| now rewrite andb_false_r].
    destruct (Hall f Hf) as [Hs Hr]; [now apply String.eqb_eq |].
    apply str_in_In in Hs, Hr. now rewrite Hs, Hr.
Qed.

Lemma default_filter_and_open_card_witness :
  Z.of_nat (shown (findings_page example_findings severity_options
                     status_default (req_options example_requirements)))
  = open_findings example_findings.
Proof.
  apply (default_filter_and_open_card example_findings example_requirements).
  intros f [<-|[<-|[<-|[]]]] H; try discriminate; simpl; tauto.
Defined.

(** ** More on the CSV export *)

Lemma map_export_row_nonempty (fs : list Finding.t) :
  Forall (fun cells : list string => cells <> []) (map export_row fs).
Proof.
  apply Forall_forall. intros cells Hin. apply in_map_iff in Hin.
  destruct Hin as [f [<- _]]. discriminate.
Qed.

Lemma read_csv_findings_frame (fs : list Finding.t) :
  read_csv (to_csv (findings_frame fs)) = export_columns :: map export_row fs.
Proof.
  unfold to_csv. cbn [columns rows findings_frame].
  apply read_csv_write_records. constructor; [discriminate |].
  apply map_export_row_nonempty.
Qed.

(** X11.  The export determines the table: two filtered lists with the same
    export have the same rows, whatever commas, quotes and line breaks their
    cells hold; and only the empty list has no export. *)
Theorem csv_determines_rows (fs1 fs2 : list Finding.t) :
  csv fs1 = csv fs2 -> map export_row fs1 = map export_row fs2.
Proof.
  intros H.
  destruct fs1 as [|f1 fs1], fs2 as [|f2 fs2]; try discriminate;
    [reflexivity |].
  apply (f_equal (option_map read_csv)) in H. cbn [csv option_map] in H.
  rewrite !read_csv_findings_frame in H. congruence.
Qed.

Lemma csv_determines_rows_witness :
  map export_row (filtered example_findings severity_options status_options
                    ["req_1"; "req_8"])
  = map export_row example_findings.
Proof.
  apply (csv_determines_rows
           (filtered example_findings severity_options status_options
                     ["req_1"; "req_8"])
           example_findings).
  reflexivity.
Defined.

Lemma split_lines_from_ge (s : string) :
  forall acc rest : string,
    (Datatypes.S (List.length (split_lines_from "" rest))
     <= List.length (split_lines_from acc (s ++ String LF rest)))%nat.
Proof.
  induction s as [|c s IH]; intros acc rest.
  - cbn [append split_lines_from].
    change (Ascii.eqb LF LF) with true. cbn iota. simpl. lia.
  - cbn [append split_lines_from]. destruct (Ascii.eqb c LF).
    + pose proof (IH "" rest). simpl. lia.
    + apply IH.
Qed.

Lemma split_lines_write_records_ge (records : list (list string)) :
  (List.length records
   <= List.length (split_lines (write_records records)))%nat.
Proof.
  unfold split_lines. induction records as [|cells records IH]; simpl.
  - lia.
  - pose proof (split_lines_from_ge (csv_record cells) ""
                  (write_records records)). lia.
Qed.

Lemma write_records_ends (cells : list string)
    (records : list (list string)) :
  exists body : string,
    write_records (cells :: records) = body ++ String LF "".
Proof.
  revert cells. induction records as [|r records IH]; intros cells.
  - exists (csv_record cells). reflexivity.
  - destruct (IH r) as [body E].
    exists (csv_record cells ++ String LF body).
    cbn [write_records] in *. rewrite E, append_assoc. reflexivity.
Qed.

(** X12.  The export of a filtered list that is not empty ends with a line
    feed and never has fewer lines than one for the header and one per
    finding. *)
Theorem csv_line_count_at_least (fs : list Finding.t) :
  fs <> [] ->
  exists text : string,
    csv fs = Some text
    /\ (exists body : string, text = body ++ String LF "")
    /\ (Datatypes.S (List.length fs) <= List.length (split_lines text))%nat.
Proof.
  intros Hne. exists (to_csv (findings_frame fs)).
  split; [destruct fs; [congruence | reflexivity] |]. split.
  - apply write_records_ends.
  - unfold to_csv. cbn [columns rows findings_frame].
    pose proof (split_lines_write_records_ge
                  (export_columns :: map export_row fs)) as H.
    cbn [List.length] in H. now rewrite length_map in H.
Qed.

Lemma csv_line_count_at_least_witness :
  exists text : string,
    csv [finding_two_lines] = Some text
    /\ (2 <= List.length (split_lines text))%nat.
Proof.
  destruct (csv_line_count_at_least [finding_two_lines])
    as [text [Hcsv [_ Hlen]]]; [discriminate |].
  exists text. split; [exact Hcsv | exact Hlen].
Defined.

Lemma has_special_has_LF (s : string) :
  has_special s = false -> has_LF s = false.
Proof.
  induction s as [|c s IH]; simpl; [reflexivity |].
  intros H. apply orb_false_iff in H. destruct H as [Hc Hs].
  destruct (special_false c Hc) as [_ [_ HLF]]. now rewrite HLF, IH.
Qed.

Lemma join_fields_plain (cells : list string) :
  Forall (fun cell => has_special cell = false) cells ->
  join_fields cells = String.concat "," cells.
Proof.
  induction 1 as [|c cells Hc _ IH]; [reflexivity |].
  destruct cells as [|c2 more].
  - cbn [join_fields String.concat]. unfold csv_field. now rewrite Hc.
  - change (join_fields (c :: c2 :: more))
      with (csv_field c ++ String comma (join_fields (c2 :: more))).
    rewrite IH. unfold csv_field. rewrite Hc. reflexivity.
Qed.

(** X13.  When no exported cell of the filtered findings holds a comma, a
    double quote, a line feed or a carriage return, nothing is quoted: the
    lines of the export are the header and, for each finding, its seven
    cells joined by commas. *)
Theorem csv_of_plain_findings (fs : list Finding.t) :
  fs <> [] ->
  Forall (fun f => Forall (fun cell => has_special cell = false)
                          (export_row f)) fs ->
  exists text : string,
    csv fs = Some text
    /\ split_lines text
       = header_line :: map (fun f => String.concat "," (export_row f)) fs.
Proof.
  intros Hne Hplain. exists (to_csv (findings_frame fs)).
  split; [destruct fs; [congruence | reflexivity] |].
  unfold to_csv. cbn [columns rows findings_frame].
  rewrite split_lines_write_records.
  - cbn [map]. rewrite map_map. f_equal. apply map_ext_in.
    intros f Hf. pose proof (proj1 (Forall_forall _ _) Hplain f Hf) as Hp.
    pose proof (join_fields_plain (export_row f) Hp) as E.
    unfold csv_record. cbn [export_row] in *. rewrite E.
    destruct (String.concat "," _) as [|x t] eqn:Ec; [| reflexivity].
    exfalso. cbn [String.concat] in Ec. apply append_empty in Ec.
    destruct Ec as [_ Ec]. discriminate.
  - constructor; [repeat constructor |].
    apply Forall_forall. intros cells Hin. apply in_map_iff in Hin.
    destruct Hin as [f [<- Hf]].
    pose proof (proj1 (Forall_forall _ _) Hplain f Hf) as Hp.
    apply Forall_forall. intros cell Hcell. apply has_special_has_LF.
    exact (proj1 (Forall_forall _ _) Hp cell Hcell).
Qed.

Lemma csv_of_plain_findings_witness :
  exists text : string,
    csv example_findings = Some text
    /\ split_lines text
       = header_line
         :: map (fun f => String.concat "," (export_row f)) example_findings.
Proof.
  apply (csv_of_plain_findings example_findings); [discriminate |].
  repeat constructor.
Defined.

(** ** More on the event annotations *)

Lemma score_at_date_NaT (df_trend : list TrendPoint.t) :
  score_at_date df_trend NaT = [].
Proof.
  unfold score_at_date. induction df_trend as [|p df IH]; [reflexivity |].
  cbn [filter]. now destruct (TrendPoint.date p).
Qed.


Section TrendLoop.

Variable to_datetime : string -> option Timestamp.

Lemma add_event_annotations_raises (df_trend : list TrendPoint.t)
    (events : list Event.t) :
  forall annotations : list Annotation,
    add_event_annotations to_datetime df_trend annotations events = None
    <-> Exists (fun e => to_datetime (Event.date e) = None) events.
Proof.
  induction events as [|e events IH]; intros annotations;
    cbn [add_event_annotations].
  - split; [discriminate | intros H; inversion H].
  - unfold add_event_annotation.
    destruct (to_datetime (Event.date e)) as [d|] eqn:Ed.
    + rewrite Exists_cons.
      destruct (score_at_date df_trend d); rewrite IH;
        (split; [tauto | intros [H|H]; [congruence | exact H]]).
    + split; [intros _; now apply Exists_cons_hd | reflexivity].
Qed.

(** X14.  The loop over the events fails as a whole exactly when the date
    of some event cannot be read: one such event anywhere in the list leaves
    the chart without any annotation, and otherwise the loop returns. *)
Theorem trend_annotations_raise_iff (df_trend : list TrendPoint.t)
    (events : list Event.t) :
  trend_annotations to_datetime df_trend events = None
  <-> exists e : Event.t,
        In e events /\ to_datetime (Event.date e) = None.
Proof.
  unfold trend_annotations. rewrite add_event_annotations_raises.
  apply Exists_exists.
Qed.



(** X16.  An event whose date is read as the missing timestamp gets no
    annotation, whatever the trend holds, rows with a missing date
    included. *)
Theorem missing_date_is_never_annotated (df_trend : list TrendPoint.t)
    (annotations : list Annotation) (event : Event.t) :
  to_datetime (Event.date event) = Some NaT ->
  add_event_annotation to_datetime df_trend annotations event
  = Some annotations.
Proof.
  intros H. unfold add_event_annotation.
  now rewrite H, score_at_date_NaT.
Qed.

End TrendLoop.


Lemma missing_date_is_never_annotated_witness :
  add_event_annotation (fun _ => Some NaT)
    [TrendPoint.mk NaT (50 # 1) 3 3] [] event_in_range
  = Some [].
Proof.
  apply (missing_date_is_never_annotated (fun _ => Some NaT)
           [TrendPoint.mk NaT (50 # 1) 3 3] [] event_in_range).
  reflexivity.
Defined.

(** ** More on the loaders *)

Section LoaderRuns.

Variable DATA_DIR : string.
Variable yaml_safe_load : string -> option Doc.
Variable json_load : string -> option Doc.

Local Abbreviation run := (load DATA_DIR yaml_safe_load json_load).
Local Abbreviation later := (steps DATA_DIR yaml_safe_load json_load).
Local Abbreviation path f := (data_file DATA_DIR (loader_file f)).
Local Abbreviation value_in f content :=
  (value_of_content (loader_parser yaml_safe_load json_load f)
     (loader_key f) content).

(** A call that finds nothing stored opens the file of the loader, if it
    is there, and stores the value when there is one. *)
Lemma load_uncached (f : Loader) (w : World) :
  cache w f = None ->
  run f w
  = match files w (path f) with
    | None => (Raise FileNotFoundError, w)
    | Some content =>
        match value_in f content with
        | Ok v =>
            (Ok v,
             {| files := files w;
                cache := fun g => if loader_eqb g f then Some v
                                  else cache w g;
                opened := (opened w ++ [path f])%list |})
        | Raise e =>
            (Raise e,
             {| files := files w; cache := cache w;
                opened := (opened w ++ [path f])%list |})
        end
    end.
Proof.
  intros Hc.
  destruct f;
    unfold load, load_requirements, load_control_status, load_findings,
      load_trend_data, cache_data; rewrite Hc;
    unfold load_requirements_body, load_control_status_body,
      load_findings_body, load_trend_data_body, bind, open_file,
      value_of_content, parse, getitem, ret, raise;
    cbn [loader_file loader_parser loader_key];
    destruct (files w _) as [content|]; try reflexivity;
    try (destruct (yaml_safe_load content) as [[]|]; try reflexivity;
         destruct (assoc _ _); reflexivity);
    try (destruct (json_load content) as [[]|]; try reflexivity;
         destruct (assoc _ _); reflexivity);
    destruct (json_load content); reflexivity.
Qed.

(** X17.  A call that raises stores nothing and changes no file: the
    loader had no value stored before the call and the cache is the same
    after it, so the next call of the loader goes to the files again and has
    the outcome that the files of that moment give. *)
Theorem failed_load_is_not_memoised (f : Loader) (w w' : World)
    (e : Error) :
  run f w = (Raise e, w') ->
  cache w f = None
  /\ cache w' = cache w
  /\ files w' = files w
  /\ forall files' : string -> option string,
       fst (run f {| files := files'; cache := cache w';
                     opened := opened w' |})
       = match files' (path f) with
         | None => Raise FileNotFoundError
         | Some content => value_in f content
         end.
Proof.
  intros H. destruct (cache w f) as [v|] eqn:Hc.
  - rewrite (load_hit _ _ _ f w v Hc) in H. discriminate.
  - assert (Hw : cache w' = cache w /\ files w' = files w).
    { rewrite (load_uncached f w Hc) in H.
      destruct (files w (path f)) as [content|].
      - destruct (value_in f content); [discriminate |].
        injection H as _ <-. split; reflexivity.
      - injection H as _ <-. split; reflexivity. }
    destruct Hw as [Hcache Hfiles]. repeat split; trivial.
    intros files'. rewrite load_uncached by (cbn; now rewrite Hcache).
    cbn [files]. destruct (files' (path f)) as [content|]; [| reflexivity].
    now destruct (value_in f content).
Qed.

(** X18.  A call that finds nothing stored and returns a value has opened
    the file of its loader, that file only and once; it has changed no file
    and no stored value of another loader, and the value is the one that
    the content of the file is worth. *)
Theorem first_load_reads_its_file (f : Loader) (w w' : World) (v : Doc) :
  cache w f = None ->
  run f w = (Ok v, w') ->
  opened w' = (opened w ++ [path f])%list
  /\ files w' = files w
  /\ (forall g : Loader, g <> f -> cache w' g = cache w g)
  /\ exists content : string,
       files w (path f) = Some content /\ value_in f content = Ok v.
Proof.
  intros Hc H. rewrite (load_uncached f w Hc) in H.
  destruct (files w (path f)) as [content|]; [| discriminate].
  destruct (value_in f content) as [v0|e0] eqn:Ev; [| discriminate].
  injection H as -> <-. cbn. repeat split.
  - intros g Hg. destruct (loader_eqb g f) eqn:E; [| reflexivity].
    apply loader_eqb_eq in E. contradiction.
  - exists content. split; [reflexivity | exact Ev].
Qed.

(** X19.  The outcome of a call that finds nothing stored: a missing file
    raises FileNotFoundError and opens nothing; a content that cannot be
    parsed raises ParseError; for the requirements and the findings a parsed
    document that is no mapping raises TypeError and a mapping without the
    key raises KeyError; otherwise the call returns the document, or its
    value under the key. *)
Theorem first_load_outcome (f : Loader) (w : World) :
  cache w f = None ->
  fst (run f w)
  = match files w (path f) with
    | None => Raise FileNotFoundError
    | Some content => value_in f content
    end
  /\ (files w (path f) = None -> snd (run f w) = w).
Proof.
  intros Hc. rewrite (load_uncached f w Hc).
  destruct (files w (path f)) as [content|].
  - split; [| discriminate]. now destruct (value_in f content).
  - split; reflexivity.
Qed.

Lemma load_ok_cached (f g : Loader) (w w' : World) (v u : Doc) :
  cache w g = Some u -> run f w = (Ok v, w') -> cache w' g = Some u.
Proof.
  intros Hg H. pose proof (load_keeps DATA_DIR yaml_safe_load json_load
                             f g w u Hg) as Hk.
  now rewrite H in Hk.
Qed.

(** X20.  When the four loads at the start of the script have returned,
    running them again, at once or after any calls of the loaders and
    changes to the files, returns the same four values and opens no file. *)
Theorem load_data_rerun (w w' : World) (vs : Doc * Doc * Doc * Doc) :
  load_data DATA_DIR yaml_safe_load json_load w = (Ok vs, w') ->
  forall w2 : World,
    later w' w2 ->
    load_data DATA_DIR yaml_safe_load json_load w2 = (Ok vs, w2).
Proof.
  unfold load_data, bind, ret.
  change (load_requirements DATA_DIR yaml_safe_load)
    with (run LoadRequirements).
  change (load_control_status DATA_DIR json_load)
    with (run LoadControlStatus).
  change (load_findings DATA_DIR json_load) with (run LoadFindings).
  change (load_trend_data DATA_DIR json_load) with (run LoadTrendData).
  destruct (run LoadRequirements w) as [[r|e] w1] eqn:E1; [| discriminate].
  destruct (run LoadControlStatus w1) as [[c|e] w2] eqn:E2;
    [| discriminate].
  destruct (run LoadFindings w2) as [[fi|e] w3] eqn:E3; [| discriminate].
  destruct (run LoadTrendData w3) as [[t|e] w4] eqn:E4; [| discriminate].
  intros H. injection H as <- <-. intros w5 Hsteps.
  pose proof (load_stores _ _ _ _ _ _ _ E1) as C1.
  pose proof (load_stores _ _ _ _ _ _ _ E2) as C2.
  pose proof (load_stores _ _ _ _ _ _ _ E3) as C3.
  pose proof (load_stores _ _ _ _ _ _ _ E4) as C4.
  pose proof (load_ok_cached _ _ _ _ _ _ C1 E2) as C1'.
  pose proof (load_ok_cached _ _ _ _ _ _ C1' E3) as C1''.
  pose proof (load_ok_cached _ _ _ _ _ _ C1'' E4) as C1'''.
  pose proof (load_ok_cached _ _ _ _ _ _ C2 E3) as C2'.
  pose proof (load_ok_cached _ _ _ _ _ _ C2' E4) as C2''.
  pose proof (load_ok_cached _ _ _ _ _ _ C3 E4) as C3'.
  rewrite (load_hit _ _ _ _ _ _
             (steps_keep _ _ _ _ _ _ _ Hsteps C1''')).
  rewrite (load_hit _ _ _ _ _ _
             (steps_keep _ _ _ _ _ _ _ Hsteps C2'')).
  rewrite (load_hit _ _ _ _ _ _
             (steps_keep _ _ _ _ _ _ _ Hsteps C3')).
  rewrite (load_hit _ _ _ _ _ _
             (steps_keep _ _ _ _ _ _ _ Hsteps C4)).
  reflexivity.
Qed.

End LoaderRuns.

Lemma failed_load_is_not_memoised_witness :
  let run := load "data" example_yaml example_json in
  cache (snd (run LoadFindings example_world)) = cache example_world
  /\ fst (run LoadFindings
            {| files := files example_full_world;
               cache := cache (snd (run LoadFindings example_world));
               opened := opened (snd (run LoadFindings example_world)) |})
     = Raise ParseError.
Proof.
  intros run.
  destruct (failed_load_is_not_memoised "data" example_yaml example_json
              LoadFindings example_world
              (snd (run LoadFindings example_world)) FileNotFoundError
              eq_refl) as [_ [Hcache [_ Hnext]]].
  split; [exact Hcache |].
  exact (Hnext (files example_full_world)).
Defined.

Lemma first_load_reads_its_file_witness :
  let run := load "data" example_yaml example_json_load in
  opened (snd (run LoadFindings example_full_world))
  = ["data/simulated_findings.json"]
  /\ files (snd (run LoadFindings example_full_world))
     = files example_full_world.
Proof.
  intros run.
  destruct (first_load_reads_its_file "data" example_yaml example_json_load
              LoadFindings example_full_world
              (snd (run LoadFindings example_full_world)) (DList [])
              eq_refl eq_refl) as [Hopened [Hfiles _]].
  split; [exact Hopened | exact Hfiles].
Defined.

Lemma first_load_outcome_witness :
  fst (load "data" example_yaml example_json LoadTrendData example_world)
  = Raise FileNotFoundError
  /\ fst (load "data" example_yaml example_json LoadFindings
            {| files := fun _ => Some "{}"; cache := fun _ => None;
               opened := [] |})
     = Raise KeyError.
Proof.
  split.
  - exact (proj1 (first_load_outcome "data" example_yaml example_json
                    LoadTrendData example_world eq_refl)).
  - exact (proj1 (first_load_outcome "data" example_yaml example_json
                    LoadFindings
                    {| files := fun _ => Some "{}"; cache := fun _ => None;
                       opened := [] |} eq_refl)).
Defined.

Lemma load_data_rerun_witness :
  let start := load_data "data" example_yaml example_json_load in
  let w1 := snd (start example_full_world) in
  opened w1
  = ["data/pci_requirements.yaml"; "data/simulated_control_status.json";
     "data/simulated_findings.json"; "data/simulated_trend.json"]
  /\ start (without_files w1)
     = (Ok (DList [], DDict [], DList [], DDict []), without_files w1).
Proof.
  intros start w1. split; [reflexivity |].
  apply (load_data_rerun "data" example_yaml example_json_load
           example_full_world w1 (DList [], DDict [], DList [], DDict [])
           eq_refl).
  apply (steps_step _ _ _ w1 (without_files w1) (without_files w1)).
  - apply (step_files _ _ _ w1 (fun _ => None)).
  - apply steps_refl.
Defined.

(** ** The selector of the Requirement Details page *)

Lemma dict_getitem_set (d : list (string * string)) (k v k' : string) :
  DetailsPage.dict_getitem (DetailsPage.dict_set d k v) k'
  = if String.eqb k k' then Some v else DetailsPage.dict_getitem d k'.
Proof.
  induction d as [|[k0 v0] d IH]; simpl.
  - reflexivity.
  - destruct (String.eqb k0 k) eqn:E0; simpl.
    + apply String.eqb_eq in E0. subst k0.
      now destruct (String.eqb k k').
    + rewrite IH. destruct (String.eqb k0 k') eqn:E1; [| reflexivity].
      apply String.eqb_eq in E1. subst k0. now rewrite String.eqb_sym, E0.
Qed.




Lemma find_app_list {A : Type} (test : A -> bool) (l1 l2 : list A) :
  find test (l1 ++ l2)
  = match find test l1 with
    | Some a => Some a
    | None => find test l2
    end.
Proof.
  induction l1 as [|a l1 IH]; simpl; [reflexivity |].
  now destruct (test a).
Qed.

Lemma fill_getitem (requirements : list Requirement.t) (l : string) :
  forall d : list (string * string),
    DetailsPage.dict_getitem (DetailsPage.fill d requirements) l
    = match find (fun r => String.eqb (DetailsPage.label r) l)
                 (rev requirements) with
      | Some r => Some (Requirement.id r)
      | None => DetailsPage.dict_getitem d l
      end.
Proof.
  induction requirements as [|r rest IH]; intros d; simpl; [reflexivity |].
  rewrite IH, find_app_list, dict_getitem_set.
  destruct (find _ (rev rest)); [reflexivity |]. simpl.
  now destruct (String.eqb (DetailsPage.label r) l).
Qed.

Lemma dict_getitem_keys (d : list (string * string)) (k : string) :
  In k (DetailsPage.dict_keys d) <-> DetailsPage.dict_getitem d k <> None.
Proof.
  unfold DetailsPage.dict_keys.
  induction d as [|[k0 v0] d IH]; simpl; [tauto |].
  destruct (String.eqb k0 k) eqn:E.
  - apply String.eqb_eq in E. split; [discriminate | now left].
  - apply String.eqb_neq in E. rewrite <- IH. tauto.
Qed.

Lemma req_options_lookup (requirements : list Requirement.t) (l : string) :
  match DetailsPage.dict_getitem (DetailsPage.req_options requirements) l with
  | Some i =>
      exists r : Requirement.t,
        first_such (fun r => DetailsPage.label r = l) (rev requirements) r
        /\ i = Requirement.id r
  | None =>
      forall r : Requirement.t,
        In r requirements -> DetailsPage.label r <> l
  end.
Proof.
  unfold DetailsPage.req_options. rewrite fill_getitem.
  pose proof (find_first_such
                (fun r => String.eqb (DetailsPage.label r) l)
                (fun r => DetailsPage.label r = l) (rev requirements)
                (fun r => String.eqb_eq _ _)) as H.
  destruct (find _ (rev requirements)) as [r|].
  - exists r. split; [exact H | reflexivity].
  - intros r Hr. apply H. now apply in_rev in Hr.
Qed.



(** X22.  For a label that the selector offers, the page does not raise,
    the selected id is the id of a requirement of the catalogue, and the
    page stays empty exactly when no control of the snapshot has that id. *)
Theorem details_page_of_offered_label (requirements : list Requirement.t)
    (control_status : Snapshot.t) (findings : list Finding.t) (l : string) :
  In l (DetailsPage.dict_keys (DetailsPage.req_options requirements)) ->
  exists selected_req : string,
    DetailsPage.page requirements control_status findings (Some l)
    = Ok (requirement_detail selected_req requirements control_status
            findings)
    /\ (exists r : Requirement.t,
           In r requirements /\ Requirement.id r = selected_req)
    /\ (requirement_detail selected_req requirements control_status findings
        = None
        <-> forall c : ControlStatus.t,
              In c (Snapshot.controls control_status) ->
              ControlStatus.requirement_id c <> selected_req).
Proof.
  intros Hl. apply dict_getitem_keys in Hl.
  pose proof (req_options_lookup requirements l) as Hget.
  destruct (DetailsPage.dict_getitem (DetailsPage.req_options requirements) l)
    as [i|] eqn:Ei; [| congruence].
  destruct Hget as [r [Hr ->]].
  exists (Requirement.id r). split; [| split].
  - unfold DetailsPage.page. now rewrite Ei.
  - exists r. apply first_such_In in Hr. destruct Hr as [Hin _].
    apply in_rev in Hin. split; [exact Hin | reflexivity].
  - apply first_such_In in Hr. destruct Hr as [Hin _].
    apply in_rev in Hin.
    unfold requirement_detail, find_control, find_req_info.
    pose proof (find_first_such
                  (fun c => String.eqb (ControlStatus.requirement_id c)
                                       (Requirement.id r))
                  (fun c => ControlStatus.requirement_id c
                            = Requirement.id r)
                  (Snapshot.controls control_status)
                  (fun c => String.eqb_eq _ _)) as Hc.
    pose proof (find_first_such
                  (fun r' => String.eqb (Requirement.id r')
                                        (Requirement.id r))
                  (fun r' => Requirement.id r' = Requirement.id r)
                  requirements
                  (fun r' => String.eqb_eq _ _)) as Hq.
    destruct (find _ (Snapshot.controls control_status)) as [c|];
      destruct (find _ requirements) as [q|].
    + split; [discriminate |]. intros Hnone. exfalso.
      apply first_such_In in Hc. destruct Hc as [Hcin Hcid].
      exact (Hnone c Hcin Hcid).
    + exfalso. exact (Hq r Hin eq_refl).
    + split; [intros _; exact Hc | reflexivity].
    + exfalso. exact (Hq r Hin eq_refl).
Qed.

Lemma details_page_of_offered_label_witness :
  exists selected_req : string,
    DetailsPage.page example_requirements example_snapshot example_findings
      (Some "REQ 8 - Identify Users and Authenticate Access")
    = Ok (requirement_detail selected_req example_requirements
            example_snapshot example_findings)
    /\ exists r : Requirement.t,
         In r example_requirements /\ Requirement.id r = selected_req.
Proof.
  destruct (details_page_of_offered_label example_requirements
              example_snapshot example_findings
              "REQ 8 - Identify Users and Authenticate Access")
    as [selected_req [Hpage [Hreq _]]].
  - right. left. reflexivity.
  - exists selected_req. split; [exact Hpage | exact Hreq].
Defined.

(** ** The grid of the requirement cards *)

Lemma requirement_cards_from_grid (requirements : list Requirement.t)
    (controls : list ControlStatus.t) :
  forall start : nat,
    List.length (requirement_cards_from requirements start controls)
    = List.length controls
    /\ forall card : Card,
         In card (requirement_cards_from requirements start controls) ->
         (column card < 3)%nat.
Proof.
  induction controls as [|c rest IH]; intros start; simpl.
  - split; [reflexivity | intros ? []].
  - destruct (IH (Datatypes.S start)) as [Hlen Hcol]. split.
    + now rewrite Hlen.
    + intros card [<-|Hin]; [| now apply Hcol].
      cbn [column requirement_card]. apply Nat.mod_upper_bound. lia.
Qed.

(** X23.  The Executive Summary draws one card per control of the
    snapshot, and every card goes to one of the three columns, so that the
    column index never leaves the row of three columns. *)
Theorem requirement_cards_fill_three_columns (control_status : Snapshot.t)
    (requirements : list Requirement.t) :
  List.length (requirement_cards control_status requirements)
  = List.length (Snapshot.controls control_status)
  /\ forall card : Card,
       In card (requirement_cards control_status requirements) ->
       (column card < 3)%nat.
Proof. apply requirement_cards_from_grid. Qed.
